(** * Crop-suitability simulator: the scoring and growth-timeline engine

    A shallow embedding of [server.js] (the [/api/simulate] handler, its
    inner [rangeFit], the soil aggregation, the 120-day biomass loop, the
    status classification and [getCropDataFromGemini] with its cache), and
    the properties of the specification proved or refuted over it.

    Numbers.  A JavaScript number is modelled by [number]: a finite value
    carried as an exact rational, or one of the three non-finite values
    [PInf], [NInf], [NaN].  Arithmetic on finite values is exact (binary64
    rounding is not modelled) and zero carries no sign (a division of a
    non-zero finite value by zero gives the infinity of the dividend's
    sign, as with [+0]).  The special values follow IEEE 754 as JavaScript
    does: [NaN] propagates, compares false with everything, and
    [Math.min]/[Math.max] return [NaN] when an argument is [NaN]. *)

From Stdlib Require Import QArith Qabs Qround Qminmax Lqa ZArith Lia List String.
From stdpp Require Import base option gmap strings pretty.
Import ListNotations.

Local Open Scope Q_scope.

(* ================================================================== *)
(** ** JavaScript numbers *)

Module JS.

Inductive number : Type :=
| Fin (q : Q)
| PInf
| NInf
| NaN.

(** The global [isFinite] on a number. *)
Definition isFinite (a : number) : bool :=
  match a with Fin _ => true | _ => false end.

Definition Qltb (x y : Q) : bool := negb (Qle_bool y x).

Definition neg (a : number) : number :=
  match a with
  | Fin x => Fin (- x)
  | PInf => NInf
  | NInf => PInf
  | NaN => NaN
  end.

Definition add (a b : number) : number :=
  match a, b with
  | NaN, _ | _, NaN => NaN
  | Fin x, Fin y => Fin (x + y)
  | PInf, NInf | NInf, PInf => NaN
  | PInf, _ | _, PInf => PInf
  | NInf, _ | _, NInf => NInf
  end.

Definition sub (a b : number) : number :=
  match a, b with
  | NaN, _ | _, NaN => NaN
  | Fin x, Fin y => Fin (x - y)
  | PInf, PInf | NInf, NInf => NaN
  | PInf, _ | _, NInf => PInf
  | NInf, _ | _, PInf => NInf
  end.

(** An infinity ([pos] tells its sign) scaled by the finite [q]. *)
Definition scale_inf (pos : bool) (q : Q) : number :=
  match q ?= 0 with
  | Eq => NaN
  | Gt => if pos then PInf else NInf
  | Lt => if pos then NInf else PInf
  end.

Definition mul (a b : number) : number :=
  match a, b with
  | NaN, _ | _, NaN => NaN
  | Fin x, Fin y => Fin (x * y)
  | Fin x, PInf | PInf, Fin x => scale_inf true x
  | Fin x, NInf | NInf, Fin x => scale_inf false x
  | PInf, PInf | NInf, NInf => PInf
  | PInf, NInf | NInf, PInf => NInf
  end.

Definition div (a b : number) : number :=
  match a, b with
  | NaN, _ | _, NaN => NaN
  | Fin x, Fin y =>
      if Qeq_bool y 0
      then match x ?= 0 with Eq => NaN | Gt => PInf | Lt => NInf end
      else Fin (x / y)
  | Fin _, _ => Fin 0
  | PInf, Fin y => if Qltb y 0 then NInf else PInf
  | NInf, Fin y => if Qltb y 0 then PInf else NInf
  | _, _ => NaN
  end.

(** [a < b] *)
Definition ltb (a b : number) : bool :=
  match a, b with
  | NaN, _ | _, NaN => false
  | Fin x, Fin y => Qltb x y
  | NInf, NInf | PInf, _ | _, NInf => false
  | NInf, _ | _, PInf => true
  end.

(** [a <= b] *)
Definition leb (a b : number) : bool :=
  match a, b with
  | NaN, _ | _, NaN => false
  | Fin x, Fin y => Qle_bool x y
  | NInf, _ | _, PInf => true
  | PInf, _ | _, NInf => false
  end.

(** [a > b] and [a >= b] *)
Definition gtb (a b : number) : bool := ltb b a.
Definition geb (a b : number) : bool := leb b a.

(** [a === b] on numbers *)
Definition eqb (a b : number) : bool :=
  match a, b with
  | Fin x, Fin y => Qeq_bool x y
  | PInf, PInf | NInf, NInf => true
  | _, _ => false
  end.

(** [Math.min(a, b)] and [Math.max(a, b)] *)
Definition Math_min (a b : number) : number :=
  match a, b with
  | NaN, _ | _, NaN => NaN
  | _, _ => if ltb b a then b else a
  end.

Definition Math_max (a b : number) : number :=
  match a, b with
  | NaN, _ | _, NaN => NaN
  | _, _ => if ltb a b then b else a
  end.

(** The integer nearest to [q], ties towards plus infinity. *)
Definition round_half_up (q : Q) : Z := Qfloor (q + 0.5).

(** [Math.round(a)] *)
Definition Math_round (a : number) : number :=
  match a with
  | Fin q => Fin (inject_Z (round_half_up q))
  | _ => a
  end.

(** [Number(a.toFixed(3))]: the nearest multiple of 1/1000, a tie taking
    the larger magnitude; at 1e21 and above [toFixed] prints the number
    itself, and a non-finite number prints and reads back as itself. *)
Definition toFixed3 (a : number) : number :=
  match a with
  | Fin q =>
      if Qle_bool (inject_Z (10 ^ 21)) (Qabs q) then Fin q
      else if Qltb q 0
           then Fin (- (inject_Z (round_half_up (- q * 1000)) / 1000))
           else Fin (inject_Z (round_half_up (q * 1000)) / 1000)
  | _ => a
  end.

(** [a ?? b] where [None] stands for [null]/[undefined]. *)
Definition nullish {A} (a : option A) (b : A) : A :=
  match a with Some x => x | None => b end.

End JS.

Import JS.

(* ================================================================== *)
(** ** Data model *)

(** An agronomic tolerance band, as the crop-data JSON gives it: four
    JSON numbers, hence finite. *)
Record ThresholdRange : Type := mkRange {
  min : Q;
  max : Q;
  idealMin : Q;
  idealMax : Q
}.

Record SoilTexture : Type := mkTexture {
  clayMax : Q;
  sandMax : Q
}.

(** The object parsed from the crop-data answer; an absent key is [None]. *)
Module Crop.
Record t : Type := mk {
  temperatureC : option ThresholdRange;
  annualRainfallMm : option ThresholdRange;
  solarMJm2day : option ThresholdRange;
  soilPh : option ThresholdRange;
  soilTexture : option SoilTexture
}.
End Crop.

(** What [fetchClimate] returns (the [source] url left out). *)
Module Climate.
Record t : Type := mk {
  tempC : number;
  rainMmPerDay : number;
  annualRainMm : number;
  solarMJm2day : number;
  rhPct : number;
  windMps : number
}.
End Climate.

(** What [fetchSoil] returns; [None] is a [null] property. *)
Module Soil.
Record t : Type := mk {
  ph : option number;
  soc : option number;
  clay : option number;
  silt : option number;
  sand : option number
}.
End Soil.

Record Frame : Type := mkFrame {
  day : Z;
  biomass : number;
  stage : string;
  alive : bool
}.

Record Fits : Type := mkFits {
  temperature : number;
  rainfall : number;
  solar : number;
  soil : number
}.

Record SimulationResult : Type := mkResult {
  score : number;
  status : string;
  timeline : list Frame;
  fits : Fits;
  limits : list string
}.

(** [SIMULATION_CONSTANTS] *)
Module WEIGHTS.
Definition temperature : Q := 0.35.
Definition rainfall : Q := 0.3.
Definition solar : Q := 0.15.
Definition soil : Q := 0.2.
End WEIGHTS.

Module GROWTH.
Definition baseRate : Q := 0.012.
Definition envFactor : Q := 0.018.
Definition stressThreshold : Q := 0.6.
Definition decayFactor : Q := 0.04.
End GROWTH.

Module SOIL.
Definition socContributionFactor : Q := 150.
Definition maxSocBonus : Q := 0.2.
Definition texturePenalty : Q := 0.2.
End SOIL.

(* ================================================================== *)
(** ** The engine *)

(** [rangeFit(val, r)] *)
Definition rangeFit (val : number) (r : option ThresholdRange) : number :=
  match isFinite val, r with
  | false, _ | _, None => Fin 0.5
  | true, Some r =>
      if ltb val (Fin (min r)) || gtb val (Fin (max r)) then Fin 0
      else if geb val (Fin (idealMin r)) && leb val (Fin (idealMax r))
      then Fin 1
      else
        let dist :=
          if ltb val (Fin (idealMin r))
          then sub (Fin (idealMin r)) val
          else sub val (Fin (idealMax r)) in
        let span :=
          if ltb val (Fin (idealMin r))
          then sub (Fin (idealMin r)) (Fin (min r))
          else sub (Fin (max r)) (Fin (idealMax r)) in
        let penalty := Math_min (Fin 1) (div dist span) in
        sub (Fin 1) (mul (Fin 0.6) penalty)
  end.

(** [isFinite(v) && v > reqs.soilTexture.<key>]: the texture object is
    read only when [v] is finite, and reading a key of an absent texture
    object throws ([None]). *)
Definition exceeds (v : number) (tex : option SoilTexture)
    (key : SoilTexture -> Q) : option bool :=
  if isFinite v
  then match tex with
       | Some t => Some (gtb v (Fin (key t)))
       | None => None
       end
  else Some false.

(** [texturePenalty()] *)
Definition texturePenalty (clay sand : number) (reqs : Crop.t)
    : option number :=
  match exceeds clay (Crop.soilTexture reqs) clayMax with
  | None => None
  | Some c =>
      let p := if c then add (Fin 0) (Fin SOIL.texturePenalty) else Fin 0 in
      match exceeds sand (Crop.soilTexture reqs) sandMax with
      | None => None
      | Some s => Some (if s then add p (Fin SOIL.texturePenalty) else p)
      end
  end.

Definition socBonus (soc : number) : number :=
  if isFinite soc
  then Math_min (Fin SOIL.maxSocBonus)
                (div soc (Fin SOIL.socContributionFactor))
  else Fin 0.

(** [soilQuality], from the observations; [None] when [texturePenalty()]
    throws. *)
Definition soilQuality (ph clay sand soc : number) (reqs : Crop.t)
    : option number :=
  let phFit := rangeFit ph (Crop.soilPh reqs) in
  match texturePenalty clay sand reqs with
  | None => None
  | Some tp =>
      Some (Math_max (Fin 0)
              (Math_min (Fin 1) (add (sub phFit tp) (socBonus soc))))
  end.

Definition envScore (f : Fits) : number :=
  add (add (add (mul (temperature f) (Fin WEIGHTS.temperature))
                (mul (rainfall f) (Fin WEIGHTS.rainfall)))
           (mul (solar f) (Fin WEIGHTS.solar)))
      (mul (soil f) (Fin WEIGHTS.soil)).

Definition days : nat := 120.

Module stageMarkers.
Definition germination : Z := 7.
Definition vegetative : Z := 45.
Definition flowering : Z := 80.
Definition grainfill : Z := 110.
End stageMarkers.

Definition stageOf (d : Z) : string :=
  if (d <? stageMarkers.germination)%Z then "pre-germination"
  else if (d <? stageMarkers.vegetative)%Z then "germination"
  else if (d <? stageMarkers.flowering)%Z then "flowering"
  else "maturity".

(** The variables the timeline loop assigns. *)
Record LoopState : Type := mkLoop {
  ls_biomass : number;
  ls_alive : bool;
  ls_timeline : list Frame
}.

Definition growthRate (env : number) : number :=
  add (Fin GROWTH.baseRate) (mul (Fin GROWTH.envFactor) env).

Definition decay (stress : number) : number :=
  if gtb stress (Fin GROWTH.stressThreshold)
  then mul (sub stress (Fin GROWTH.stressThreshold)) (Fin GROWTH.decayFactor)
  else Fin 0.

(** [reqs.annualRainfallMm?.min ?? 400] *)
Definition minRain (reqs : Crop.t) : Q :=
  nullish (option_map min (Crop.annualRainfallMm reqs)) 400.

Definition shock (rain : number) (reqs : Crop.t) : number :=
  if ltb rain (Fin (minRain reqs)) then Fin 0.003 else Fin 0.

(** One day's biomass update: growth, decay, clamp, rainfall shock. *)
Definition grow (env stress rain : number) (reqs : Crop.t) (b : number)
    : number :=
  let b1 :=
    Math_max (Fin 0)
      (Math_min (Fin 1) (sub (add b (growthRate env)) (decay stress))) in
  Math_max (Fin 0) (sub b1 (shock rain reqs)).

(** The body of [for (let d = 1; d <= days; d++)]. *)
Definition loopBody (env stress rain : number) (reqs : Crop.t)
    (d : Z) (st : LoopState) : LoopState :=
  let b := grow env stress rain reqs (ls_biomass st) in
  let a :=
    if eqb b (Fin 0) && (20 <? d)%Z && gtb stress (Fin 0.7)
    then false else ls_alive st in
  mkLoop b a
         (ls_timeline st ++ [mkFrame d (toFixed3 b) (stageOf d) a]).

(** [n] rounds of a counting loop that starts at [d]. *)
Fixpoint forLoop {S : Type} (n : nat) (d : Z) (body : Z -> S -> S) (s : S)
    : S :=
  match n with
  | O => s
  | Datatypes.S n' => forLoop n' (d + 1)%Z body (body d s)
  end.

Definition runTimeline (env stress rain : number) (reqs : Crop.t)
    : LoopState :=
  forLoop days 1%Z (loopBody env stress rain reqs) (mkLoop (Fin 0) true []).

(** [status]; [timeline[days - 1]] is read only when [alive] is false, and
    reading [biomass] of a missing frame throws ([None]). *)
Definition statusOf (alive : bool) (tl : list Frame) (finalScore : number)
    : option string :=
  let rest :=
    if ltb finalScore (Fin 60) then "struggle"
    else if ltb finalScore (Fin 80) then "good"
    else "great" in
  if negb alive
  then match nth_error tl (days - 1) with
       | Some f => Some (if ltb (biomass f) (Fin 0.2) then "fail" else rest)
       | None => None
       end
  else Some rest.

Definition pushIf (c : bool) (s : string) (l : list string) : list string :=
  if c then l ++ [s] else l.

(** The handler's computation once crop data, climate and soil are at
    hand; [None] is a thrown [TypeError]. *)
Definition evaluate (climR : Climate.t) (soilR : Soil.t) (reqs : Crop.t)
    : option SimulationResult :=
  let ph := nullish (Soil.ph soilR) NaN in
  let clay := nullish (Soil.clay soilR) NaN in
  let sand := nullish (Soil.sand soilR) NaN in
  let soc := nullish (Soil.soc soilR) NaN in
  let tFit := rangeFit (Climate.tempC climR) (Crop.temperatureC reqs) in
  let rFit := rangeFit (Climate.annualRainMm climR) (Crop.annualRainfallMm reqs) in
  let sFit := rangeFit (Climate.solarMJm2day climR) (Crop.solarMJm2day reqs) in
  let phFit := rangeFit ph (Crop.soilPh reqs) in
  match soilQuality ph clay sand soc reqs with
  | None => None
  | Some soilQ =>
      let env := envScore (mkFits tFit rFit sFit soilQ) in
      let stress := sub (Fin 1) env in
      let st := runTimeline env stress (Climate.annualRainMm climR) reqs in
      let finalScore := Math_round (mul env (Fin 100)) in
      match statusOf (ls_alive st) (ls_timeline st) finalScore with
      | None => None
      | Some status =>
          let limits := [] in
          let limits := pushIf (ltb tFit (Fin 0.4))
                          "Temperature outside comfortable range" limits in
          let limits := pushIf (ltb rFit (Fin 0.4))
                          "Insufficient or excessive rainfall" limits in
          let limits := pushIf (ltb sFit (Fin 0.4))
                          "Suboptimal solar radiation" limits in
          let limits := pushIf (ltb phFit (Fin 0.5))
                          "Soil pH unsuitable" limits in
          match exceeds clay (Crop.soilTexture reqs) clayMax with
          | None => None
          | Some c =>
              let limits := pushIf c "Soil too clayey (poor drainage)" limits in
              match exceeds sand (Crop.soilTexture reqs) sandMax with
              | None => None
              | Some s =>
                  let limits :=
                    pushIf s "Soil too sandy (low water retention)" limits in
                  Some (mkResult finalScore status (ls_timeline st)
                          (mkFits tFit rFit sFit soilQ) limits)
              end
          end
      end
  end.

(* ================================================================== *)
(** ** The crop-data provider and the request handler *)

Definition Cache : Type := gmap string Crop.t.

(** What the outside answers while one request is served: whether
    [GEMINI_API_KEY] is set, the parsed JSON of the model's answer (or the
    message of what the import, the call or [JSON.parse] threw), what
    [fetchClimate] returned or threw, and what [fetchSoil] returned. *)
Record World : Type := mkWorld {
  GEMINI_API_KEY : bool;
  geminiAnswer : string + Crop.t;
  climateAnswer : string + Climate.t;
  soilAnswer : Soil.t
}.

Definition truthy {A} (o : option A) : bool :=
  match o with Some _ => true | None => false end.

(** The [try] block of [getCropDataFromGemini]: the parsed object, or the
    message of the error thrown. *)
Definition geminiTry (w : World) : string + Crop.t :=
  match geminiAnswer w with
  | inl e => inl e
  | inr parsed =>
      if negb (truthy (Crop.temperatureC parsed))
         || negb (truthy (Crop.soilPh parsed))
         || negb (truthy (Crop.soilTexture parsed))
      then inl "Invalid JSON structure received from Gemini."
      else inr parsed
  end.

(** [getCropDataFromGemini(cropName)] over the cache: [None] is [null]. *)
Definition getCropDataFromGemini (cache : Cache) (w : World)
    (cropName : string) : option Crop.t * Cache :=
  match cache !! cropName with
  | Some d => (Some d, cache)
  | None =>
      if negb (GEMINI_API_KEY w) then (None, cache)
      else match geminiTry w with
           | inl _ => (None, cache)
           | inr parsed => (Some parsed, <[cropName := parsed]> cache)
           end
  end.

(** The request body; [None] is an absent key. *)
Record Request : Type := mkRequest {
  lat : option number;
  lon : option number;
  crop : option string
}.

Inductive Response : Type :=
| Error (code : Z) (error : string)
| Success (body : SimulationResult).

Definition isFiniteOpt (o : option number) : bool :=
  match o with Some a => isFinite a | None => false end.

Definition nonEmpty (o : option string) : bool :=
  match o with Some (String _ _) => true | _ => false end.

Definition dq : string := String (Ascii.ascii_of_nat 34) EmptyString.

(** [e.message || "Simulation failed"] *)
Definition messageOf (e : string) : string :=
  match e with EmptyString => "Simulation failed" | _ => e end.

(** The [/api/simulate] handler (the echoed [climate], [soil] and
    [sources] of the answer are left out of [Success]). *)
Definition apiSimulate (cache : Cache) (w : World) (req : Request)
    : Response * Cache :=
  if negb (isFiniteOpt (lat req)) || negb (isFiniteOpt (lon req))
     || negb (nonEmpty (crop req))
  then (Error 400 "lat, lon, and crop are required", cache)
  else
    let crop := nullish (crop req) EmptyString in
    match getCropDataFromGemini cache w crop with
    | (None, cache') =>
        (Error 404
           ("Could not find agronomic data for " ++ dq ++ crop ++ dq
            ++ ". Please check the spelling or try another crop."),
         cache')
    | (Some reqs, cache') =>
        match climateAnswer w with
        | inl e => (Error 500 (messageOf e), cache')
        | inr climR =>
            match evaluate climR (soilAnswer w) reqs with
            | None => (Error 500 "TypeError", cache')
            | Some r => (Success r, cache')
            end
        end
    end.

(* ================================================================== *)
(** ** The climate and soil collaborators *)

(** [meanOfObj(obj)] on the values of the object; [None] is a missing or
    null object. *)
Definition meanOfObj (obj : option (list number)) : number :=
  let vals := nullish obj [] in
  match vals with
  | [] => NaN
  | _ :: _ =>
      div (fold_left add vals (Fin 0))
          (Fin (inject_Z (Z.of_nat (length vals))))
  end.

(** [a || b] on numbers: [a] unless it is falsy, that is zero or [NaN]. *)
Definition orNumber (a b : number) : number :=
  match a with
  | NaN => b
  | Fin q => if Qeq_bool q 0 then b else a
  | _ => a
  end.

Module Power.
(** [data?.properties?.parameter]: per parameter the values of its
    object. *)
Record parameter : Type := mkParameter {
  T2M : option (list number);
  PRECTOTCORR : option (list number);
  ALLSKY_SFC_SW_DWN : option (list number);
  RH2M : option (list number);
  WS10M : option (list number)
}.

(** What the POWER request gives: an exception of [fetch] or [r.json()],
    or a response with [r.ok], [r.status] and the parsed parameters. *)
Inductive reply : Type :=
| Throws (message : string)
| Response (ok : bool) (status : Z) (param : option parameter).
End Power.

(** [fetchClimate(lat, lon)], on the reply of the request; [inl] is the
    message of the error thrown. *)
Definition fetchClimate (r : Power.reply) : string + Climate.t :=
  match r with
  | Power.Throws e => inl e
  | Power.Response ok status param =>
      if negb ok
      then inl ("POWER fetch failed (" ++ pretty status ++ ")")%string
      else
        let p := nullish param (Power.mkParameter None None None None None) in
        let tempC := meanOfObj (Power.T2M p) in
        let rainMmPerDay := meanOfObj (Power.PRECTOTCORR p) in
        let solar := meanOfObj (Power.ALLSKY_SFC_SW_DWN p) in
        let rh := meanOfObj (Power.RH2M p) in
        let wind := meanOfObj (Power.WS10M p) in
        let annualRainMm :=
          Math_round (mul (orNumber rainMmPerDay (Fin 0)) (Fin 365)) in
        inr (Climate.mk tempC rainMmPerDay annualRainMm solar rh wind)
  end.

Module SoilGrids.
(** A layer of the answer: its name and [depths?.[0]?.values?.mean]. *)
Record layer : Type := mkLayer {
  name : string;
  mean : option number
}.

(** What one request gives: an exception of [fetch] or [r.json()], a
    response that is not [ok], or an [ok] response with
    [data.properties.layers] ([None] when [data], [data.properties] or the
    layers are missing). *)
Inductive reply : Type :=
| Throws
| Status (status : Z)
| Data (layers : option (list layer)).

(** The object [fetchSoil] returns (the [source] url left out). *)
Record result : Type := mk {
  values : Soil.t;
  error : option string
}.
End SoilGrids.

(** [getVal(key)] *)
Definition getVal (props : list SoilGrids.layer) (key : string)
    : option number :=
  match List.find (fun l => String.eqb (SoilGrids.name l) key) props with
  | Some l => SoilGrids.mean l
  | None => None
  end.

Definition soilFrom (props : list SoilGrids.layer) : Soil.t :=
  Soil.mk (getVal props "phh2o") (getVal props "soc") (getVal props "clay")
          (getVal props "silt") (getVal props "sand").

(** [hasValidData]: the [source] url never counts. *)
Definition hasValidData (s : Soil.t) : bool :=
  truthy (Soil.ph s) || truthy (Soil.soc s) || truthy (Soil.clay s)
  || truthy (Soil.silt s) || truthy (Soil.sand s).

Definition defaultSoil : Soil.t :=
  Soil.mk (Some (Fin 6.5)) (Some (Fin 15)) (Some (Fin 25)) (Some (Fin 35))
          (Some (Fin 40)).

(** [Math.min(1000 * Math.pow(2, attempt - 1), 10000)] *)
Definition retryDelay (attempt : Z) : Z :=
  Z.min (1000 * 2 ^ (attempt - 1)) 10000.

Definition shouldRetry (status attempt maxRetries : Z) : bool :=
  ((500 <=? status)%Z && (status <? 600)%Z
   || (status =? 429)%Z || (status =? 408)%Z || (status =? 502)%Z
   || (status =? 503)%Z || (status =? 504)%Z)
  && (attempt <? maxRetries)%Z.

(** What a call of [fetchSoil] comes to: the object returned ([None]
    for [undefined]), the number of requests made and the milliseconds
    waited between them. *)
Record SoilRun : Type := mkSoilRun {
  returned : option SoilGrids.result;
  attempts : Z;
  waited : Z
}.

(** The retry loop from [attempt] on; [reply k] is what request [k]
    gives. *)
Fixpoint soilLoop (fuel : nat) (attempt maxRetries : Z)
    (reply : Z -> SoilGrids.reply) (w : Z) : SoilRun :=
  match fuel with
  | O => mkSoilRun None (attempt - 1) w
  | Datatypes.S fuel' =>
      if negb (attempt <=? maxRetries)%Z
      then mkSoilRun None (attempt - 1) w
      else
        let again :=
          soilLoop fuel' (attempt + 1) maxRetries reply
                   (w + retryDelay attempt) in
        let caught :=
          if (attempt =? maxRetries)%Z
          then mkSoilRun
                 (Some (SoilGrids.mk defaultSoil
                          (Some ("API unavailable after " ++ pretty maxRetries
                                 ++ " attempts - using defaults")%string)))
                 attempt w
          else again in
        match reply attempt with
        | SoilGrids.Throws => caught
        | SoilGrids.Status st =>
            if shouldRetry st attempt maxRetries then again
            else mkSoilRun
                   (Some (SoilGrids.mk defaultSoil
                            (Some ("API error " ++ pretty st
                                   ++ " - using defaults")%string)))
                   attempt w
        | SoilGrids.Data None => caught
        | SoilGrids.Data (Some props) =>
            let result := soilFrom props in
            if negb (hasValidData result) then caught
            else mkSoilRun (Some (SoilGrids.mk result None)) attempt w
        end
  end.

(** [fetchSoil(lat, lon, maxRetries)] *)
Definition fetchSoil (lat lon : number) (maxRetries : Z)
    (reply : Z -> SoilGrids.reply) : SoilRun :=
  if ltb lat (Fin (-90)) || gtb lat (Fin 90)
     || ltb lon (Fin (-180)) || gtb lon (Fin 180)
  then mkSoilRun
         (Some (SoilGrids.mk defaultSoil
                  (Some "Invalid coordinates - using defaults")))
         0 0
  else soilLoop (Z.to_nat maxRetries) 1 maxRetries reply 0.

(** The earlier [fetchSoil], without retries: any failure gives an
    object of nulls. *)
Definition fetchSoilLegacy (reply : SoilGrids.reply) : Soil.t :=
  match reply with
  | SoilGrids.Data layers => soilFrom (nullish layers [])
  | _ => Soil.mk None None None None None
  end.

(* ================================================================== *)
(** ** The client's plant drawing ([app.js]) *)

(** [Math.floor(a)] *)
Definition Math_floor (a : number) : number :=
  match a with
  | Fin q => Fin (inject_Z (Qfloor q))
  | _ => a
  end.

(** The stroke colour: [deadColor], or
    [lerpColor(deadColor, healthyColor, amount)]. *)
Inductive Color : Type :=
| deadColor
| lerpColor (amount : number).

(** The calls made on the sketch, in order. *)
Inductive Cmd : Type :=
| Clear
| ResetMatrix
| Translate (x y : number)
| Stroke (c : Color)
| StrokeWeight (w : number)
| Line (x1 y1 x2 y2 : number)
| Push
| Rotate (a : number)
| Pop.

(** [branch(len, depth)] inside [drawPlant], with the [maxDepth] and
    [angle] of its closure; [None] when [fuel] nested calls do not reach
    the end of the recursion. *)
Fixpoint branch (fuel : nat) (maxDepth angle len depth : number)
    : option (list Cmd) :=
  match fuel with
  | O => None
  | Datatypes.S fuel' =>
      if gtb depth maxDepth then Some []
      else
        match branch fuel' maxDepth angle (mul len (Fin 0.75))
                (add depth (Fin 1)) with
        | None => None
        | Some first =>
            match branch fuel' maxDepth angle (mul len (Fin 0.75))
                    (add depth (Fin 1)) with
            | None => None
            | Some second =>
                Some ([StrokeWeight
                         (Math_max (Fin 1)
                            (mul (add (sub maxDepth depth) (Fin 1))
                                 (Fin 0.8)));
                       Line (Fin 0) (Fin 0) (Fin 0) (neg len);
                       Translate (Fin 0) (neg len);
                       Push; Rotate angle]
                      ++ first
                      ++ [Pop; Push; Rotate (neg angle)]
                      ++ second ++ [Pop])
            end
        end
  end.

(** [maxDepth] of [drawPlant] *)
Definition maxDepthOf (biomass : number) : number :=
  add (Math_floor (mul biomass (Fin 6))) (Fin 1).

(** [p.drawPlant(frame)] on the 300 by 200 canvas, with the [fits] of
    the answer. *)
Definition drawPlant (fuel : nat) (overallFits : Fits) (frame : Frame)
    : option (list Cmd) :=
  let overallHealth :=
    div (add (soil overallFits) (rainfall overallFits)) (Fin 2) in
  let plantColor :=
    if alive frame then lerpColor overallHealth else deadColor in
  let angle := add (Fin 20) (mul (solar overallFits) (Fin 25)) in
  let trunkLength := add (Fin 15) (mul (biomass frame) (Fin 50)) in
  let maxDepth := maxDepthOf (biomass frame) in
  match branch fuel maxDepth angle trunkLength (Fin 1) with
  | None => None
  | Some cmds =>
      Some ([Clear; ResetMatrix;
             Translate (div (Fin 300) (Fin 2)) (Fin 200);
             Stroke plantColor] ++ cmds)
  end.

(** The lines drawn by a list of calls. *)
Definition lines (cmds : list Cmd) : nat :=
  length (List.filter
            (fun c => match c with Line _ _ _ _ => true | _ => false end)
                 cmds).

(** The height of the matrix stack after the calls, from height [k];
    [None] when a [Pop] finds the stack empty. *)
Fixpoint stackAfter (cmds : list Cmd) (k : nat) : option nat :=
  match cmds with
  | [] => Some k
  | Push :: rest => stackAfter rest (Datatypes.S k)
  | Pop :: rest =>
      match k with
      | O => None
      | Datatypes.S k' => stackAfter rest k'
      end
  | _ :: rest => stackAfter rest k
  end.

(* ================================================================== *)
(** ** Concrete runs *)

Definition wheat : Crop.t :=
  Crop.mk (Some (mkRange 3 32 15 24)) (Some (mkRange 300 1200 450 900))
          (Some (mkRange 8 30 15 25)) (Some (mkRange 5.5 8.5 6 7.5))
          (Some (mkTexture 45 70)).

Definition temperate : Climate.t :=
  Climate.mk (Fin 18) (Fin 1.8) (Fin 657) (Fin 16) (Fin 60) (Fin 3).

Definition loam : Soil.t :=
  Soil.mk (Some (Fin 6.5)) (Some (Fin 15)) (Some (Fin 25)) (Some (Fin 35))
          (Some (Fin 40)).

Definition arctic : Climate.t :=
  Climate.mk (Fin (-20)) (Fin 0.1) (Fin 37) (Fin 2) (Fin 60) (Fin 3).

Definition acid : Soil.t :=
  Soil.mk (Some (Fin 3)) (Some (Fin 0)) (Some (Fin 25)) (Some (Fin 35))
          (Some (Fin 40)).

Definition unsurveyed : Soil.t :=
  Soil.mk (Some NaN) (Some (Fin 15)) (Some (Fin 25)) (Some (Fin 35))
          (Some (Fin 40)).

Definition nothing : SimulationResult :=
  mkResult NaN EmptyString [] (mkFits NaN NaN NaN NaN) [].

Definition noFrame : Frame := mkFrame 0 NaN EmptyString true.

(** The answer for wheat in the arctic on acid soil, and for wheat in a
    temperate climate on loam. *)
Definition barren : SimulationResult :=
  Eval vm_compute in nullish (evaluate arctic acid wheat) nothing.

Definition lush : SimulationResult :=
  Eval vm_compute in nullish (evaluate temperate loam wheat) nothing.

Definition barren_day21 : Frame :=
  Eval vm_compute in nth 20 (timeline barren) noFrame.

Definition barren_day100 : Frame :=
  Eval vm_compute in nth 99 (timeline barren) noFrame.

Definition barren_day120 : Frame :=
  Eval vm_compute in nth 119 (timeline barren) noFrame.

Definition barren_env : Q :=
  Eval vm_compute in
    match envScore (fits barren) with Fin q => q | _ => 1 end.

(** Wheat where only the rain fails, on loam. *)
Definition dry : Climate.t :=
  Climate.mk (Fin 18) (Fin 0.1) (Fin 37) (Fin 16) (Fin 60) (Fin 3).

Definition parched : SimulationResult :=
  Eval vm_compute in nullish (evaluate dry loam wheat) nothing.

Definition parched_env : Q :=
  Eval vm_compute in
    match envScore (fits parched) with Fin q => q | _ => 1 end.

(** Crop data without the texture object, a request for it, and a world
    in which the model answers with it. *)
Definition textureless : Crop.t :=
  Crop.mk (Some (mkRange 3 32 15 24)) (Some (mkRange 300 1200 450 900))
          (Some (mkRange 8 30 15 25)) (Some (mkRange 5.5 8.5 6 7.5)) None.

Definition askWheat : Request :=
  mkRequest (Some (Fin 52)) (Some (Fin 13)) (Some "wheat").

Definition answering (d : Crop.t) (s : Soil.t) : World :=
  mkWorld true (inr d) (inr temperate) s.

(* ================================================================== *)
(** ** Predicates on timelines and on the cache *)

(** Frames are pushed in day order: the frame at index [i] is day [i+1]. *)
Definition numbered (tl : list Frame) : Prop :=
  forall i f, nth_error tl i = Some f -> day f = (Z.of_nat i + 1)%Z.

(** The [alive] flags of a timeline never go back from false to true,
    and agree with the loop variable [a] at the end. *)
Definition latched (a : bool) (tl : list Frame) : Prop :=
  (forall i j fi fj, (i < j)%nat -> nth_error tl i = Some fi ->
     nth_error tl j = Some fj -> alive fi = false -> alive fj = false)
  /\ (forall i f, nth_error tl i = Some f -> alive f = false -> a = false)
  /\ (forall f, nth_error tl (length tl - 1) = Some f -> alive f = a).

(** What holds of the loop variables before the iteration of day [d],
    whatever the numbers are. *)
Definition shaped (d : Z) (st : LoopState) : Prop :=
  (Z.of_nat (length (ls_timeline st)) = d - 1)%Z
  /\ numbered (ls_timeline st)
  /\ latched (ls_alive st) (ls_timeline st).

(** The three objects [getCropDataFromGemini] insists on are present. *)
Definition complete (d : Crop.t) : Prop :=
  is_Some (Crop.temperatureC d) /\ is_Some (Crop.soilPh d)
  /\ is_Some (Crop.soilTexture d).

Definition cacheOk (cache : Cache) : Prop :=
  map_Forall (fun _ d => complete d) cache.

(** Request [k] of [fetchSoil] failed in a way that is retried: an
    exception, a body without layers or without any value, or a status
    that [shouldRetry] accepts. *)
Definition retried (maxRetries : Z) (reply : Z -> SoilGrids.reply) (k : Z)
    : Prop :=
  match reply k with
  | SoilGrids.Throws => (k < maxRetries)%Z
  | SoilGrids.Data None => (k < maxRetries)%Z
  | SoilGrids.Data (Some props) =>
      hasValidData (soilFrom props) = false /\ (k < maxRetries)%Z
  | SoilGrids.Status st => shouldRetry st k maxRetries = true
  end.

(** What holds of the retry loop entered at [attempt] after waiting
    [w]. *)
Definition soilRunOk (maxRetries : Z) (reply : Z -> SoilGrids.reply)
    (attempt w : Z) (run : SoilRun) : Prop :=
  (exists res,
      returned run = Some res
      /\ (SoilGrids.error res <> None -> SoilGrids.values res = defaultSoil)
      /\ (SoilGrids.error res = None ->
          exists props,
            reply (attempts run) = SoilGrids.Data (Some props)
            /\ SoilGrids.values res = soilFrom props
            /\ hasValidData (soilFrom props) = true))
  /\ (attempt <= attempts run <= maxRetries)%Z
  /\ (w <= waited run)%Z
  /\ (waited run - w <= 10000 * (attempts run - attempt))%Z
  /\ (waited run - w
      <= 1000 * (2 ^ (attempts run - 1) - 2 ^ (attempt - 1)))%Z
  /\ (forall k, (attempt <= k < attempts run)%Z -> retried maxRetries reply k).

(** Two finite numbers in order. *)
Definition numLe (a b : number) : Prop :=
  exists x y, a = Fin x /\ b = Fin y /\ x <= y.

(* ================================================================== *)
(** ** Comparisons and clamps on finite numbers *)

Lemma Qltb_lt (x y : Q) : Qltb x y = true <-> x < y.
Proof.
  unfold Qltb. rewrite negb_true_iff. split.
  - intros H. apply Qnot_le_lt. intros L.
    apply Qle_bool_iff in L. congruence.
  - intros H. destruct (Qle_bool y x) eqn:E; [|reflexivity].
    apply Qle_bool_iff in E. exact (False_ind _ (Qlt_not_le _ _ H E)).
Qed.

Lemma Qltb_ge (x y : Q) : Qltb x y = false <-> y <= x.
Proof.
  unfold Qltb. rewrite negb_false_iff. apply Qle_bool_iff.
Qed.

Lemma Qle_bool_gt (x y : Q) : Qle_bool x y = false <-> y < x.
Proof.
  rewrite <- Qltb_lt. unfold Qltb.
  destruct (Qle_bool x y); simpl; intuition congruence.
Qed.

Lemma Qeq_bool_false (x y : Q) : Qeq_bool x y = false <-> ~ x == y.
Proof.
  split.
  - intros H E. apply Qeq_bool_iff in E. congruence.
  - intros H. destruct (Qeq_bool x y) eqn:E; [|reflexivity].
    apply Qeq_bool_iff in E. contradiction.
Qed.

(** Turn the boolean tests of the code into order facts on [Q]. *)
Ltac qprop :=
  repeat match goal with
  | H : Qltb _ _ = true |- _ => apply Qltb_lt in H
  | H : Qltb _ _ = false |- _ => apply Qltb_ge in H
  | H : Qle_bool _ _ = true |- _ => apply Qle_bool_iff in H
  | H : Qle_bool _ _ = false |- _ => apply Qle_bool_gt in H
  | H : Qeq_bool _ _ = true |- _ => apply Qeq_bool_iff in H
  | H : Qeq_bool _ _ = false |- _ => apply Qeq_bool_false in H
  end.

(** Name every [Qmin]/[Qmax] of the goal and keep only its defining
    property, so that [lra] can finish. *)
Ltac qclamp_min a b :=
  let m := fresh "m" in
  let Hm := fresh "Hm" in
  pose proof (Q.min_spec a b) as Hm;
  set (m := Qmin a b) in *; clearbody m.

Ltac qclamp_max a b :=
  let m := fresh "m" in
  let Hm := fresh "Hm" in
  pose proof (Q.max_spec a b) as Hm;
  set (m := Qmax a b) in *; clearbody m.

Ltac qclamp :=
  repeat match goal with
  | |- context [Qmin ?a ?b] => qclamp_min a b
  | |- context [Qmax ?a ?b] => qclamp_max a b
  | _ : context [Qmin ?a ?b] |- _ => qclamp_min a b
  | _ : context [Qmax ?a ?b] |- _ => qclamp_max a b
  end.

Lemma Math_min_Fin (a b : Q) : Math_min (Fin a) (Fin b) = Fin (Qmin a b).
Proof.
  unfold Math_min, ltb, Qmin, GenericMinMax.gmin.
  destruct (Qltb b a) eqn:E; qprop; f_equal;
    destruct (a ?= b) eqn:C; try reflexivity;
    [apply Qeq_alt in C|apply Qlt_alt in C|apply Qgt_alt in C]; lra.
Qed.

Lemma Math_max_Fin (a b : Q) : Math_max (Fin a) (Fin b) = Fin (Qmax a b).
Proof.
  unfold Math_max, ltb, Qmax, GenericMinMax.gmax.
  destruct (Qltb a b) eqn:E; qprop; f_equal;
    destruct (a ?= b) eqn:C; try reflexivity;
    [apply Qeq_alt in C|apply Qgt_alt in C|apply Qlt_alt in C]; lra.
Qed.

Lemma div_Fin (a b : Q) : ~ b == 0 -> div (Fin a) (Fin b) = Fin (a / b).
Proof.
  intros H. unfold div. apply Qeq_bool_false in H. now rewrite H.
Qed.

Lemma ratio_unit (d s : Q) : 0 < d -> d <= s -> 0 < d / s /\ d / s <= 1.
Proof.
  intros Hd Hs. assert (0 < s) by lra. split.
  - apply Qlt_shift_div_l; lra.
  - apply Qle_shift_div_r; lra.
Qed.

(* ================================================================== *)
(** ** The fit evaluator *)

Section RangeFit.

Variable x : Q.
Variable r : ThresholdRange.

(** The four ways [rangeFit] returns on a finite value, each with the
    facts its guards establish.  The division is reached only with a
    positive span, whatever the order of the four bounds. *)
Lemma rangeFit_cases :
  ((x < min r \/ max r < x) /\ rangeFit (Fin x) (Some r) = Fin 0)
  \/ ((min r <= x /\ x <= max r /\ idealMin r <= x /\ x <= idealMax r)
      /\ rangeFit (Fin x) (Some r) = Fin 1)
  \/ ((min r <= x /\ x <= max r /\ x < idealMin r)
      /\ rangeFit (Fin x) (Some r)
         = Fin (1 - 0.6 * Qmin 1 ((idealMin r - x) / (idealMin r - min r))))
  \/ ((min r <= x /\ x <= max r /\ idealMin r <= x /\ idealMax r < x)
      /\ rangeFit (Fin x) (Some r)
         = Fin (1 - 0.6 * Qmin 1 ((x - idealMax r) / (max r - idealMax r)))).
Proof.
  unfold rangeFit, gtb, geb, ltb, leb. cbn [isFinite].
  destruct (Qltb x (min r)) eqn:E1; cbn [orb].
  { qprop. left. auto. }
  destruct (Qltb (max r) x) eqn:E2.
  { qprop. left. auto. }
  destruct (Qle_bool (idealMin r) x) eqn:E3; cbn [andb].
  - destruct (Qle_bool x (idealMax r)) eqn:E4.
    + qprop. right. left. auto.
    + qprop. right. right. right.
      assert (L : Qltb x (idealMin r) = false) by (apply Qltb_ge; lra).
      rewrite L. cbn [sub].
      rewrite div_Fin by lra. rewrite Math_min_Fin. cbn [mul sub].
      repeat split; auto.
  - qprop. right. right. left.
    assert (L : Qltb x (idealMin r) = true) by (apply Qltb_lt; lra).
    rewrite L. cbn [sub].
    rewrite div_Fin by lra. rewrite Math_min_Fin. cbn [mul sub].
    repeat split; auto.
Qed.

(** On a finite value the fit is 0, 1, or at least 0.4 and below 1. *)
Lemma rangeFit_Fin_bounds :
  exists q, rangeFit (Fin x) (Some r) = Fin q
            /\ (q = 0 \/ 0.4 <= q <= 1).
Proof.
  destruct rangeFit_cases as [[_ E]|[[_ E]|[[H E]|[H E]]]];
    rewrite E; eexists; split; try reflexivity.
  - left. reflexivity.
  - right. lra.
  - right.
    destruct (ratio_unit (idealMin r - x) (idealMin r - min r)); try lra.
    qclamp. lra.
  - right.
    destruct (ratio_unit (x - idealMax r) (max r - idealMax r)); try lra.
    qclamp. lra.
Qed.

End RangeFit.

(** Whatever the value and the range, the fit is a finite number of
    [0, 1]: no [NaN] and no infinity leaves [rangeFit]. *)
Lemma rangeFit_unit (v : number) (r : option ThresholdRange) :
  exists q, rangeFit v r = Fin q /\ 0 <= q <= 1.
Proof.
  destruct v as [x| | |], r as [r|];
    try (exists 0.5; split; [reflexivity|lra]).
  destruct (rangeFit_Fin_bounds x r) as (q & E & H).
  exists q. split; [exact E|]. destruct H as [->|H]; lra.
Qed.

(* ================================================================== *)
(** ** Rounding to three decimals *)

Lemma toFixed3_unit (q : Q) :
  0 <= q <= 1 ->
  exists q', toFixed3 (Fin q) = Fin q' /\ 0 <= q' <= 1 /\ (q == 0 -> q' == 0).
Proof.
  intros [H0 H1]. unfold toFixed3.
  assert (B : 1 < inject_Z (10 ^ 21)) by reflexivity.
  assert (A : Qabs q == q) by (apply Qabs_pos; exact H0).
  assert (E1 : Qle_bool (inject_Z (10 ^ 21)) (Qabs q) = false).
  { apply Qle_bool_gt. rewrite A. apply Qle_lt_trans with 1; [lra|exact B]. }
  assert (E2 : Qltb q 0 = false) by (apply Qltb_ge; exact H0).
  rewrite E1, E2. unfold round_half_up.
  eexists. split; [reflexivity|].
  assert (L : (Qfloor 0.5 <= Qfloor (q * 1000 + 0.5))%Z)
    by (apply Qfloor_resp_le; lra).
  assert (U : (Qfloor (q * 1000 + 0.5) <= Qfloor 1000.5)%Z)
    by (apply Qfloor_resp_le; lra).
  change (Qfloor 0.5) with 0%Z in L.
  change (Qfloor 1000.5) with 1000%Z in U.
  rewrite Zle_Qle in L, U.
  change (inject_Z 0) with 0 in L. change (inject_Z 1000) with 1000 in U.
  split; [split|].
  - apply Qle_shift_div_l; [reflexivity|]. lra.
  - apply Qle_shift_div_r; [reflexivity|]. lra.
  - intros Z0.
    assert (F : q * 1000 + 0.5 == 0.5) by lra.
    rewrite F. reflexivity.
Qed.

(* ================================================================== *)
(** ** The counting loop *)

Lemma forLoop_invariant {S : Type} (P : Z -> S -> Prop) (body : Z -> S -> S) :
  (forall d s, P d s -> P (d + 1)%Z (body d s)) ->
  forall n d s, P d s -> P (d + Z.of_nat n)%Z (forLoop n d body s).
Proof.
  intros step. induction n as [|n IH]; intros d s H.
  - cbn [forLoop]. now replace (d + Z.of_nat 0)%Z with d by lia.
  - cbn [forLoop].
    replace (d + Z.of_nat (Datatypes.S n))%Z with ((d + 1) + Z.of_nat n)%Z
      by lia.
    apply IH, step, H.
Qed.

Lemma nth_error_snoc {A} (l : list A) (x : A) (i : nat) (y : A) :
  nth_error (l ++ [x]) i = Some y ->
  ((i < length l)%nat /\ nth_error l i = Some y)
  \/ (i = length l /\ y = x).
Proof.
  intros H. destruct (Nat.lt_ge_cases i (length l)) as [L|L].
  - left. split; [exact L|]. now rewrite nth_error_app1 in H.
  - right. rewrite nth_error_app2 in H by exact L.
    destruct (i - length l)%nat as [|k] eqn:E.
    + cbn in H. split; [lia|congruence].
    + cbn in H. now destruct k.
Qed.

Section Timeline.

Variables env stress rain : number.
Variable reqs : Crop.t.

Local Abbreviation body := (loopBody env stress rain reqs).
Local Abbreviation start := (mkLoop (Fin 0) true []).

Lemma shaped_start : shaped 1 start.
Proof.
  split; [reflexivity|]. split; [|split; [|split]].
  - intros [|i] f H; discriminate H.
  - intros [|i] j fi fj _ H; discriminate H.
  - intros [|i] f H; discriminate H.
  - intros f H; discriminate H.
Qed.

Lemma shaped_step d st : shaped d st -> shaped (d + 1) (body d st).
Proof.
  intros (Hlen & Hnum & Hmono & Hcur & Hlast).
  unfold shaped, loopBody. cbn [ls_timeline ls_alive].
  set (b := grow env stress rain reqs (ls_biomass st)).
  set (a := if eqb b (Fin 0) && (20 <? d)%Z && gtb stress (Fin 0.7)
            then false else ls_alive st).
  assert (Ha : ls_alive st = false -> a = false).
  { intros E. subst a. rewrite E. now destruct (_ && _ && _). }
  set (fr := mkFrame d (toFixed3 b) (stageOf d) a).
  repeat split.
  - rewrite length_app. cbn. lia.
  - intros i f H. apply nth_error_snoc in H as [[L H]|[-> ->]].
    + now apply Hnum.
    + cbn. lia.
  - intros i j fi fj Lij Hi Hj Ei.
    apply nth_error_snoc in Hi as [[Li Hi]|[-> ->]];
      apply nth_error_snoc in Hj as [[Lj Hj]|[-> ->]]; try lia.
    + exact (Hmono i j fi fj Lij Hi Hj Ei).
    + cbn. apply Ha. exact (Hcur i fi Hi Ei).
  - intros i f H E. apply nth_error_snoc in H as [[L H]|[-> ->]].
    + apply Ha. exact (Hcur i f H E).
    + exact E.
  - intros f H. rewrite length_app in H. cbn [length] in H.
    apply nth_error_snoc in H as [[L H]|[_ ->]]; [lia|reflexivity].
Qed.

Lemma runTimeline_shaped :
  shaped 121 (runTimeline env stress rain reqs).
Proof.
  unfold runTimeline.
  change 121%Z with (1 + Z.of_nat days)%Z.
  apply forLoop_invariant; [exact shaped_step|exact shaped_start].
Qed.

Lemma runTimeline_length :
  length (ls_timeline (runTimeline env stress rain reqs)) = 120%nat.
Proof.
  destruct runTimeline_shaped as (H & _). lia.
Qed.

End Timeline.

(* ================================================================== *)
(** ** The daily recurrence on finite numbers *)

Lemma shock_cases (rain : number) (reqs : Crop.t) :
  shock rain reqs = Fin 0 \/ shock rain reqs = Fin 0.003.
Proof.
  unfold shock. destruct (ltb rain (Fin (minRain reqs))); auto.
Qed.

Lemma decay_Fin (s : Q) :
  exists dc, decay (Fin s) = Fin dc /\ 0 <= dc
             /\ (GROWTH.stressThreshold < s ->
                 dc = (s - GROWTH.stressThreshold) * GROWTH.decayFactor).
Proof.
  unfold decay, gtb, ltb.
  destruct (Qltb GROWTH.stressThreshold s) eqn:E; qprop.
  - eexists. split; [reflexivity|]. split; [|reflexivity].
    unfold GROWTH.stressThreshold, GROWTH.decayFactor in *. nra.
  - exists 0. split; [reflexivity|]. split; [lra|]. intros H. lra.
Qed.

Section Recurrence.

(** The growth rate [g], the decay [dc] and the rainfall shock [sh] are
    the same on every day of a run. *)
Variables g dc sh : Q.
Hypothesis sh_nonneg : 0 <= sh.

Local Abbreviation next b := (Qmax 0 (Qmax 0 (Qmin 1 (b + g - dc)) - sh)).

Lemma next_unit b : 0 <= next b /\ next b <= 1.
Proof. qclamp. lra. Qed.

Lemma next_mono b b' : b <= b' -> next b <= next b'.
Proof. intros H. qclamp. lra. Qed.

Lemma next_zero b : next 0 == 0 -> b == 0 -> next b == 0.
Proof.
  intros H0 Hb. apply Qle_antisym.
  - apply Qle_trans with (next 0); [apply next_mono; lra|].
    apply Qle_lteq. right. exact H0.
  - apply next_unit.
Qed.

Lemma next_positive b : 0 < next 0 -> 0 <= b -> 0 < next b.
Proof.
  intros H0 Hb. apply Qlt_le_trans with (next 0); [exact H0|].
  now apply next_mono.
Qed.

Variables env stress rain : number.
Variable reqs : Crop.t.
Hypothesis growthRate_is : growthRate env = Fin g.
Hypothesis decay_is : decay stress = Fin dc.
Hypothesis shock_is : shock rain reqs = Fin sh.

Lemma grow_Fin b : grow env stress rain reqs (Fin b) = Fin (next b).
Proof.
  unfold grow. rewrite growthRate_is, decay_is, shock_is.
  cbn [add sub]. rewrite Math_min_Fin, Math_max_Fin.
  cbn [sub]. now rewrite Math_max_Fin.
Qed.

Local Abbreviation run := (runTimeline env stress rain reqs).

(** Every biomass, of the loop variable and of the frames, is a finite
    number of [0, 1]. *)
Lemma runTimeline_unit :
  Forall (fun f => exists q, biomass f = Fin q /\ 0 <= q <= 1)
         (ls_timeline run).
Proof.
  pose (P := fun (_ : Z) (st : LoopState) =>
    (exists b, ls_biomass st = Fin b /\ 0 <= b <= 1)
    /\ Forall (fun f => exists q, biomass f = Fin q /\ 0 <= q <= 1)
              (ls_timeline st)).
  assert (H : P (1 + Z.of_nat days)%Z run).
  { unfold runTimeline. apply (forLoop_invariant P).
    - intros d st ((b & Eb & Hb) & Hall). unfold P, loopBody.
      cbn [ls_biomass ls_timeline]. rewrite Eb, grow_Fin.
      pose proof (next_unit b) as Hn. split.
      + eexists. split; [reflexivity|]. lra.
      + apply Forall_app. split; [exact Hall|].
        constructor; [|constructor]. cbn [biomass].
        destruct (toFixed3_unit (next b)) as (q & Eq & Hq & _); [lra|].
        exists q. split; [exact Eq|lra].
    - split; [exists 0; split; [reflexivity|lra]|constructor]. }
  exact (proj2 H).
Qed.

(** When a day's update cannot lift the biomass off zero, every frame
    has biomass 0. *)
Lemma runTimeline_barren :
  next 0 == 0 ->
  Forall (fun f => exists q, biomass f = Fin q /\ q == 0) (ls_timeline run).
Proof.
  intros H0.
  pose (P := fun (_ : Z) (st : LoopState) =>
    (exists b, ls_biomass st = Fin b /\ b == 0)
    /\ Forall (fun f => exists q, biomass f = Fin q /\ q == 0)
              (ls_timeline st)).
  assert (H : P (1 + Z.of_nat days)%Z run).
  { unfold runTimeline. apply (forLoop_invariant P).
    - intros d st ((b & Eb & Hb) & Hall). unfold P, loopBody.
      cbn [ls_biomass ls_timeline]. rewrite Eb, grow_Fin.
      pose proof (next_zero b H0 Hb) as Hn. split.
      + eexists. split; [reflexivity|exact Hn].
      + apply Forall_app. split; [exact Hall|].
        constructor; [|constructor]. cbn [biomass].
        destruct (toFixed3_unit (next b)) as (q & Eq & _ & Hq); [lra|].
        exists q. split; [exact Eq|exact (Hq Hn)].
    - split; [exists 0; split; reflexivity|constructor]. }
  exact (proj2 H).
Qed.

(** When a day's update lifts the biomass off zero, the mortality test
    never fires. *)
Lemma runTimeline_thriving : 0 < next 0 -> ls_alive run = true.
Proof.
  intros H0.
  pose (P := fun (_ : Z) (st : LoopState) =>
    (exists b, ls_biomass st = Fin b /\ 0 <= b) /\ ls_alive st = true).
  assert (H : P (1 + Z.of_nat days)%Z run).
  { unfold runTimeline. apply (forLoop_invariant P).
    - intros d st ((b & Eb & Hb) & Ha). unfold P, loopBody.
      cbn [ls_biomass ls_alive]. rewrite Eb, grow_Fin.
      pose proof (next_positive b H0 Hb) as Hn. split.
      + eexists. split; [reflexivity|lra].
      + assert (E : eqb (Fin (next b)) (Fin 0) = false).
        { apply Qeq_bool_false. lra. }
        rewrite E. exact Ha.
    - split; [exists 0; split; [reflexivity|lra]|reflexivity]. }
  exact (proj2 H).
Qed.

(** Under stress above 0.7 and with the biomass held at zero, the plant
    is alive exactly through day 20. *)
Lemma runTimeline_dies :
  next 0 == 0 -> gtb stress (Fin 0.7) = true ->
  ls_alive run = false
  /\ Forall (fun f => alive f = (day f <=? 20)%Z) (ls_timeline run).
Proof.
  intros H0 Hs.
  pose (P := fun (d : Z) (st : LoopState) =>
    (exists b, ls_biomass st = Fin b /\ b == 0)
    /\ ls_alive st = (d - 1 <=? 20)%Z
    /\ Forall (fun f => alive f = (day f <=? 20)%Z) (ls_timeline st)).
  assert (H : P (1 + Z.of_nat days)%Z run).
  { unfold runTimeline. apply (forLoop_invariant P).
    - intros d st ((b & Eb & Hb) & Ha & Hall). unfold P, loopBody.
      cbn [ls_biomass ls_alive ls_timeline]. rewrite Eb, grow_Fin.
      pose proof (next_zero b H0 Hb) as Hn.
      assert (E : eqb (Fin (next b)) (Fin 0) = true).
      { apply Qeq_bool_iff. exact Hn. }
      rewrite E, Hs, Ha. cbn [andb].
      assert (A : (if (20 <? d)%Z && true then false
                   else (d - 1 <=? 20)%Z) = (d <=? 20)%Z).
      { destruct (Z.ltb_spec 20 d); cbn [andb];
          destruct (Z.leb_spec d 20); destruct (Z.leb_spec (d - 1) 20);
          try reflexivity; lia. }
      rewrite A. split; [|split].
      + eexists. split; [reflexivity|exact Hn].
      + f_equal. lia.
      + apply Forall_app. split; [exact Hall|].
        constructor; [|constructor]. reflexivity.
    - split; [exists 0; split; reflexivity|].
      split; [reflexivity|constructor]. }
  destruct H as (_ & Ha & Hall). split; [exact Ha|exact Hall].
Qed.

End Recurrence.

(* ================================================================== *)
(** ** Soil quality and the environmental score *)

Lemma exceeds_present (v : number) (tex : SoilTexture) (key : SoilTexture -> Q) :
  exceeds v (Some tex) key = Some (isFinite v && gtb v (Fin (key tex))).
Proof. unfold exceeds. now destruct (isFinite v). Qed.

Lemma texturePenalty_present (clay sand : number) (reqs : Crop.t)
    (tex : SoilTexture) :
  Crop.soilTexture reqs = Some tex ->
  exists p,
    texturePenalty clay sand reqs = Some (Fin p)
    /\ p == (if isFinite clay && gtb clay (Fin (clayMax tex))
             then 0.2 else 0)
          + (if isFinite sand && gtb sand (Fin (sandMax tex))
             then 0.2 else 0).
Proof.
  intros E. unfold texturePenalty. rewrite E, !exceeds_present.
  destruct (isFinite clay && _), (isFinite sand && _); cbn [add];
    eexists; (split; [reflexivity|]);
    unfold SOIL.texturePenalty; lra.
Qed.

Lemma texturePenalty_Fin (clay sand : number) (reqs : Crop.t) (tp : number) :
  texturePenalty clay sand reqs = Some tp -> exists p, tp = Fin p.
Proof.
  unfold texturePenalty.
  destruct (exceeds clay _ _) as [c|]; [|discriminate].
  destruct (exceeds sand _ _) as [s|]; [|discriminate].
  intros [= <-]. destruct c, s; cbn [add]; eexists; reflexivity.
Qed.

Lemma socBonus_Fin (s : Q) :
  socBonus (Fin s)
  = Fin (Qmin SOIL.maxSocBonus (s / SOIL.socContributionFactor)).
Proof.
  unfold socBonus. cbn [isFinite].
  rewrite div_Fin by (unfold SOIL.socContributionFactor; lra).
  apply Math_min_Fin.
Qed.

Lemma socBonus_finite (soc : number) : exists bo, socBonus soc = Fin bo.
Proof.
  destruct soc as [s| | |]; try (exists 0; reflexivity).
  rewrite socBonus_Fin. eexists. reflexivity.
Qed.

Lemma soilQuality_Fin (ph clay sand soc : number) (reqs : Crop.t)
    (f p bo : Q) :
  rangeFit ph (Crop.soilPh reqs) = Fin f ->
  texturePenalty clay sand reqs = Some (Fin p) ->
  socBonus soc = Fin bo ->
  soilQuality ph clay sand soc reqs
  = Some (Fin (Qmax 0 (Qmin 1 (f - p + bo)))).
Proof.
  intros Ef Ep Eb. unfold soilQuality. rewrite Ef, Ep, Eb.
  cbn [sub add]. now rewrite Math_min_Fin, Math_max_Fin.
Qed.

Lemma soilQuality_unit (ph clay sand soc : number) (reqs : Crop.t)
    (v : number) :
  soilQuality ph clay sand soc reqs = Some v ->
  exists q, v = Fin q /\ 0 <= q <= 1.
Proof.
  intros H.
  destruct (rangeFit_unit ph (Crop.soilPh reqs)) as (f & Ef & _).
  destruct (socBonus_finite soc) as (bo & Eb).
  destruct (texturePenalty clay sand reqs) as [tp|] eqn:Et.
  - destruct (texturePenalty_Fin _ _ _ _ Et) as (p & ->).
    rewrite (soilQuality_Fin _ _ _ _ _ f p bo Ef Et Eb) in H.
    injection H as <-. eexists. split; [reflexivity|]. qclamp. lra.
  - unfold soilQuality in H. rewrite Et in H. discriminate.
Qed.

Lemma envScore_unit (t r s q : Q) :
  0 <= t <= 1 -> 0 <= r <= 1 -> 0 <= s <= 1 -> 0 <= q <= 1 ->
  exists e, envScore (mkFits (Fin t) (Fin r) (Fin s) (Fin q)) = Fin e
            /\ 0 <= e <= 1
            /\ e == t * 0.35 + r * 0.3 + s * 0.15 + q * 0.2.
Proof.
  intros Ht Hr Hs Hq. unfold envScore. cbn.
  eexists. split; [reflexivity|].
  unfold WEIGHTS.temperature, WEIGHTS.rainfall, WEIGHTS.solar, WEIGHTS.soil.
  split; lra.
Qed.

(* ================================================================== *)
(** ** The whole computation *)

Lemma statusOf_total (a : bool) (tl : list Frame) (sc : number) :
  length tl = 120%nat -> exists s, statusOf a tl sc = Some s.
Proof.
  intros L. unfold statusOf. destruct a; cbn [negb].
  - eexists. reflexivity.
  - destruct (nth_error tl (days - 1)) eqn:E.
    + eexists. reflexivity.
    + apply nth_error_None in E. unfold days in E. lia.
Qed.

(** What a returned result is made of: a finite environmental score of
    [0, 1], the timeline it drives, and the status read off the loop's
    final variables. *)
Lemma evaluate_inv (climR : Climate.t) (soilR : Soil.t) (reqs : Crop.t)
    (res : SimulationResult) :
  evaluate climR soilR reqs = Some res ->
  exists e,
    envScore (fits res) = Fin e /\ 0 <= e <= 1
    /\ timeline res
       = ls_timeline (runTimeline (Fin e) (Fin (1 - e))
                        (Climate.annualRainMm climR) reqs)
    /\ statusOf
         (ls_alive (runTimeline (Fin e) (Fin (1 - e))
                      (Climate.annualRainMm climR) reqs))
         (timeline res) (score res)
       = Some (status res).
Proof.
  unfold evaluate. intros H.
  destruct (soilQuality _ _ _ _ reqs) as [sq|] eqn:Esq; [|discriminate].
  destruct (soilQuality_unit _ _ _ _ _ _ Esq) as (q & -> & Hq).
  destruct (rangeFit_unit (Climate.tempC climR) (Crop.temperatureC reqs))
    as (t & Et & Ht).
  destruct (rangeFit_unit (Climate.annualRainMm climR)
              (Crop.annualRainfallMm reqs)) as (r & Er & Hr).
  destruct (rangeFit_unit (Climate.solarMJm2day climR)
              (Crop.solarMJm2day reqs)) as (s & Es & Hs).
  rewrite Et, Er, Es in H.
  destruct (envScore_unit t r s q Ht Hr Hs Hq) as (e & Ee & He & _).
  rewrite Ee in H. cbn [sub] in H.
  destruct (statusOf _ _ _) as [stat|] eqn:Est; [|discriminate].
  destruct (exceeds _ _ clayMax) as [c|]; [|discriminate].
  destruct (exceeds _ _ sandMax) as [sd|]; [|discriminate].
  apply (inj Some) in H. subst res. cbn [fits timeline score status].
  exists e. split; [exact Ee|]. split; [exact He|].
  split; [reflexivity|]. exact Est.
Qed.

(** With a texture object in the crop data the computation returns,
    whatever the observations are. *)
Lemma evaluate_total (climR : Climate.t) (soilR : Soil.t) (reqs : Crop.t)
    (tex : SoilTexture) :
  Crop.soilTexture reqs = Some tex ->
  exists res, evaluate climR soilR reqs = Some res.
Proof.
  intros E. unfold evaluate, soilQuality.
  destruct (texturePenalty_present (nullish (Soil.clay soilR) NaN)
              (nullish (Soil.sand soilR) NaN) reqs tex E) as (p & -> & _).
  match goal with
  | |- context [statusOf ?a ?tl ?sc] =>
      destruct (statusOf_total a tl sc (runTimeline_length _ _ _ _))
        as (st & ->)
  end.
  rewrite E, !exceeds_present. eexists. reflexivity.
Qed.

(* ================================================================== *)
(** ** Properties of the fit evaluator *)

(** C1.  On a finite value and a range with
    [min <= idealMin <= idealMax <= max], [rangeFit] returns 0 outside
    [min, max], 1 inside [idealMin, idealMax], and otherwise
    [1 - 0.6 * min(1, dist / span)], where [dist] is the distance to the
    nearer ideal bound and [span] the width of the tolerable band on that
    side. *)
Theorem rangeFit_piecewise (x : Q) (r : ThresholdRange) :
  min r <= idealMin r -> idealMin r <= idealMax r -> idealMax r <= max r ->
  (x < min r \/ max r < x -> rangeFit (Fin x) (Some r) = Fin 0)
  /\ (idealMin r <= x /\ x <= idealMax r -> rangeFit (Fin x) (Some r) = Fin 1)
  /\ (min r <= x /\ x < idealMin r ->
      rangeFit (Fin x) (Some r)
      = Fin (1 - 0.6 * Qmin 1 ((idealMin r - x) / (idealMin r - min r))))
  /\ (idealMax r < x /\ x <= max r ->
      rangeFit (Fin x) (Some r)
      = Fin (1 - 0.6 * Qmin 1 ((x - idealMax r) / (max r - idealMax r)))).
Proof.
  intros H1 H2 H3.
  destruct (rangeFit_cases x r) as [[C E]|[[C E]|[[C E]|[C E]]]];
    rewrite E; repeat split; intros H; try reflexivity; lra.
Qed.

Lemma rangeFit_piecewise_witness :
  let r := mkRange 3 32 15 24 in
  rangeFit (Fin 40) (Some r) = Fin 0
  /\ rangeFit (Fin 20) (Some r) = Fin 1
  /\ rangeFit (Fin 9) (Some r) = Fin (1 - 0.6 * Qmin 1 ((15 - 9) / (15 - 3)))
  /\ rangeFit (Fin 28) (Some r)
     = Fin (1 - 0.6 * Qmin 1 ((28 - 24) / (32 - 24))).
Proof.
  intros r.
  assert (H1 : min r <= idealMin r) by (cbn; lra).
  assert (H2 : idealMin r <= idealMax r) by (cbn; lra).
  assert (H3 : idealMax r <= max r) by (cbn; lra).
  split; [|split; [|split]].
  - apply (proj1 (rangeFit_piecewise 40 r H1 H2 H3)). right. cbn. lra.
  - apply (proj1 (proj2 (rangeFit_piecewise 20 r H1 H2 H3))). cbn. lra.
  - apply (proj1 (proj2 (proj2 (rangeFit_piecewise 9 r H1 H2 H3)))).
    cbn. lra.
  - apply (proj2 (proj2 (proj2 (rangeFit_piecewise 28 r H1 H2 H3)))).
    cbn. lra.
Defined.

(** C5, as stated, fails: with [idealMin = min] and a value below both,
    the span of that side is 0 and the distance is positive, and
    [rangeFit] returns 0, not 0.4. *)
Lemma rangeFit_zero_span_counterexample :
  let r := mkRange 2 4 2 3 in
  (min r <= idealMin r /\ idealMin r <= idealMax r /\ idealMax r <= max r)
  /\ 1 < idealMin r
  /\ idealMin r - min r == 0
  /\ 0 < idealMin r - 1
  /\ rangeFit (Fin 1) (Some r) = Fin 0
  /\ ~ (exists q, rangeFit (Fin 1) (Some r) = Fin q /\ q == 0.4).
Proof.
  cbn zeta. cbn [min max idealMin idealMax].
  repeat split; try lra; try reflexivity.
  intros (q & E & H). vm_compute in E. injection E as <-. lra.
Qed.

(** C5, amended.  On a finite value whose side of the ideal band has a
    span of 0, [rangeFit] returns 0: the value is then outside
    [min, max], and the hard-exclusion guard returns before the division
    is reached.  The result is a finite number, never [NaN]. *)
Theorem rangeFit_zero_span (x : Q) (r : ThresholdRange) :
  (x < idealMin r /\ idealMin r - min r == 0)
  \/ (idealMax r < x /\ max r - idealMax r == 0) ->
  rangeFit (Fin x) (Some r) = Fin 0.
Proof.
  intros H.
  destruct (rangeFit_cases x r) as [[C E]|[[C E]|[[C E]|[C E]]]];
    rewrite E; try reflexivity; lra.
Qed.

Lemma rangeFit_zero_span_witness :
  rangeFit (Fin 1) (Some (mkRange 2 4 2 3)) = Fin 0
  /\ rangeFit (Fin 5) (Some (mkRange 2 4 3 4)) = Fin 0.
Proof.
  split.
  - apply (rangeFit_zero_span 1 (mkRange 2 4 2 3)). left. cbn. lra.
  - apply (rangeFit_zero_span 5 (mkRange 2 4 3 4)). right. cbn. lra.
Defined.

(** C10.  Whatever the value and the range, the fit is 0 (hard
    exclusion), 0.5 (unknown input) or a number of [0.4, 1]; no result
    lies strictly between 0 and 0.4.  The order of the four bounds is not
    needed. *)
Theorem rangeFit_floor (v : number) (r : option ThresholdRange) :
  (rangeFit v r = Fin 0 \/ rangeFit v r = Fin 0.5
   \/ exists q, rangeFit v r = Fin q /\ 0.4 <= q <= 1)
  /\ forall q, rangeFit v r = Fin q -> ~ (0 < q < 0.4).
Proof.
  assert (H : rangeFit v r = Fin 0 \/ rangeFit v r = Fin 0.5
              \/ exists q, rangeFit v r = Fin q /\ 0.4 <= q <= 1).
  { destruct v as [x| | |], r as [r|]; try (right; left; reflexivity).
    destruct (rangeFit_Fin_bounds x r) as (q & E & [->|Hq]).
    - left. exact E.
    - right. right. exists q. split; [exact E|exact Hq]. }
  split; [exact H|].
  intros q E. rewrite E in H.
  destruct H as [[= ->]|[[= ->]|(q' & [= ->] & Hq)]]; lra.
Qed.

Lemma rangeFit_floor_witness :
  exists q, rangeFit (Fin 9) (Some (mkRange 3 32 15 24)) = Fin q
            /\ ~ (0 < q < 0.4).
Proof.
  eexists. split; [reflexivity|].
  apply (proj2 (rangeFit_floor (Fin 9) (Some (mkRange 3 32 15 24)))).
  reflexivity.
Defined.

(** C6.  A non-finite value or an absent range gives exactly 0.5, as an
    ordinary result; with [soil.ph] unknown ([NaN], or [null] read as
    [NaN]) the pH fit is exactly 0.5 and the computation still
    returns. *)
Theorem unknown_is_neutral :
  (forall v r, isFinite v = false \/ r = None -> rangeFit v r = Fin 0.5)
  /\ (forall climR soilR reqs tex,
        Soil.ph soilR = Some NaN \/ Soil.ph soilR = None ->
        Crop.soilTexture reqs = Some tex ->
        rangeFit (nullish (Soil.ph soilR) NaN) (Crop.soilPh reqs) = Fin 0.5
        /\ exists res, evaluate climR soilR reqs = Some res).
Proof.
  split.
  - intros v r [H| ->]; unfold rangeFit.
    + now rewrite H.
    + now destruct (isFinite v).
  - intros climR soilR reqs tex H E. split.
    + destruct H as [-> | ->]; reflexivity.
    + exact (evaluate_total climR soilR reqs tex E).
Qed.

Lemma unknown_is_neutral_witness :
  rangeFit PInf (Some (mkRange 5.5 8.5 6 7.5)) = Fin 0.5
  /\ rangeFit (Fin 3) None = Fin 0.5
  /\ rangeFit (nullish (Soil.ph unsurveyed) NaN) (Crop.soilPh wheat) = Fin 0.5
  /\ exists res, evaluate temperate unsurveyed wheat = Some res.
Proof.
  split; [|split].
  - apply (proj1 unknown_is_neutral). left. reflexivity.
  - apply (proj1 unknown_is_neutral). right. reflexivity.
  - apply (proj2 unknown_is_neutral temperate unsurveyed wheat
             (mkTexture 45 70)).
    + left. reflexivity.
    + reflexivity.
Defined.

(* ================================================================== *)
(** ** Properties of the soil aggregation *)

(** C7.  With pH, clay, sand and the crop data fixed, the soil quality is
    [clamp(phFit - texturePenalty + socBonus, 0, 1)] and does not decrease
    when a finite [soc] grows; it does not increase when a finite clay, or
    a finite sand, grows beyond the crop's maximum. *)
Theorem soilQuality_monotone (ph clay sand soc : number) (reqs : Crop.t)
    (tex : SoilTexture) :
  Crop.soilTexture reqs = Some tex ->
  (exists f p bo,
      rangeFit ph (Crop.soilPh reqs) = Fin f
      /\ texturePenalty clay sand reqs = Some (Fin p)
      /\ socBonus soc = Fin bo
      /\ soilQuality ph clay sand soc reqs
         = Some (Fin (Qmax 0 (Qmin 1 (f - p + bo)))))
  /\ (forall s1 s2, s1 <= s2 ->
      exists q1 q2,
        soilQuality ph clay sand (Fin s1) reqs = Some (Fin q1)
        /\ soilQuality ph clay sand (Fin s2) reqs = Some (Fin q2)
        /\ q1 <= q2)
  /\ (forall c1 c2, clayMax tex < c1 -> c1 <= c2 ->
      exists q1 q2,
        soilQuality ph (Fin c1) sand soc reqs = Some (Fin q1)
        /\ soilQuality ph (Fin c2) sand soc reqs = Some (Fin q2)
        /\ q2 <= q1)
  /\ (forall d1 d2, sandMax tex < d1 -> d1 <= d2 ->
      exists q1 q2,
        soilQuality ph clay (Fin d1) soc reqs = Some (Fin q1)
        /\ soilQuality ph clay (Fin d2) soc reqs = Some (Fin q2)
        /\ q2 <= q1).
Proof.
  intros E.
  destruct (rangeFit_unit ph (Crop.soilPh reqs)) as (f & Ef & _).
  destruct (socBonus_finite soc) as (bo & Eb).
  split; [|split; [|split]].
  - destruct (texturePenalty_present clay sand reqs tex E) as (p & Ep & _).
    exists f, p, bo. repeat split; auto.
    exact (soilQuality_Fin _ _ _ _ _ f p bo Ef Ep Eb).
  - intros s1 s2 H.
    destruct (texturePenalty_present clay sand reqs tex E) as (p & Ep & _).
    do 2 eexists.
    rewrite (soilQuality_Fin _ _ _ (Fin s1) _ f p _ Ef Ep (socBonus_Fin s1)).
    rewrite (soilQuality_Fin _ _ _ (Fin s2) _ f p _ Ef Ep (socBonus_Fin s2)).
    split; [reflexivity|]. split; [reflexivity|].
    assert (D : s1 / SOIL.socContributionFactor
                <= s2 / SOIL.socContributionFactor).
    { unfold Qdiv. apply Qmult_le_compat_r; [exact H|]. discriminate. }
    unfold SOIL.maxSocBonus.
    set (a1 := s1 / SOIL.socContributionFactor) in *.
    set (a2 := s2 / SOIL.socContributionFactor) in *.
    clearbody a1 a2. qclamp. lra.
  - intros c1 c2 H1 H2.
    destruct (texturePenalty_present (Fin c1) sand reqs tex E)
      as (p1 & Ep1 & Hp1).
    destruct (texturePenalty_present (Fin c2) sand reqs tex E)
      as (p2 & Ep2 & Hp2).
    cbn [isFinite andb gtb ltb] in Hp1, Hp2.
    assert (L1 : Qltb (clayMax tex) c1 = true) by (apply Qltb_lt; lra).
    assert (L2 : Qltb (clayMax tex) c2 = true) by (apply Qltb_lt; lra).
    rewrite L1 in Hp1. rewrite L2 in Hp2.
    do 2 eexists.
    rewrite (soilQuality_Fin _ _ _ _ _ f p1 bo Ef Ep1 Eb).
    rewrite (soilQuality_Fin _ _ _ _ _ f p2 bo Ef Ep2 Eb).
    split; [reflexivity|]. split; [reflexivity|].
    assert (D : p1 == p2) by lra. qclamp. lra.
  - intros d1 d2 H1 H2.
    destruct (texturePenalty_present clay (Fin d1) reqs tex E)
      as (p1 & Ep1 & Hp1).
    destruct (texturePenalty_present clay (Fin d2) reqs tex E)
      as (p2 & Ep2 & Hp2).
    cbn [isFinite andb gtb ltb] in Hp1, Hp2.
    assert (L1 : Qltb (sandMax tex) d1 = true) by (apply Qltb_lt; lra).
    assert (L2 : Qltb (sandMax tex) d2 = true) by (apply Qltb_lt; lra).
    rewrite L1 in Hp1. rewrite L2 in Hp2.
    do 2 eexists.
    rewrite (soilQuality_Fin _ _ _ _ _ f p1 bo Ef Ep1 Eb).
    rewrite (soilQuality_Fin _ _ _ _ _ f p2 bo Ef Ep2 Eb).
    split; [reflexivity|]. split; [reflexivity|].
    assert (D : p1 == p2) by lra. qclamp. lra.
Qed.

Lemma soilQuality_monotone_witness :
  (exists q1 q2,
      soilQuality (Fin 5.8) (Fin 25) (Fin 40) (Fin 6) wheat = Some (Fin q1)
      /\ soilQuality (Fin 5.8) (Fin 25) (Fin 40) (Fin 21) wheat
         = Some (Fin q2)
      /\ q1 <= q2)
  /\ (exists q1 q2,
      soilQuality (Fin 5.8) (Fin 50) (Fin 40) (Fin 15) wheat = Some (Fin q1)
      /\ soilQuality (Fin 5.8) (Fin 60) (Fin 40) (Fin 15) wheat
         = Some (Fin q2)
      /\ q2 <= q1)
  /\ (exists q1 q2,
      soilQuality (Fin 5.8) (Fin 25) (Fin 75) (Fin 15) wheat = Some (Fin q1)
      /\ soilQuality (Fin 5.8) (Fin 25) (Fin 80) (Fin 15) wheat
         = Some (Fin q2)
      /\ q2 <= q1).
Proof.
  split; [|split].
  - apply (proj1 (proj2 (soilQuality_monotone (Fin 5.8) (Fin 25) (Fin 40)
                           (Fin 15) wheat (mkTexture 45 70) eq_refl))).
    cbn. lra.
  - apply (proj1 (proj2 (proj2
             (soilQuality_monotone (Fin 5.8) (Fin 25) (Fin 40) (Fin 15)
                wheat (mkTexture 45 70) eq_refl)))); cbn; lra.
  - apply (proj2 (proj2 (proj2
             (soilQuality_monotone (Fin 5.8) (Fin 25) (Fin 40) (Fin 15)
                wheat (mkTexture 45 70) eq_refl)))); cbn; lra.
Defined.

(* ================================================================== *)
(** ** Properties of the timeline and of the status *)

Lemma rates_finite (e : Q) (rain : number) (reqs : Crop.t) :
  exists g dc sh,
    0 <= sh
    /\ growthRate (Fin e) = Fin g
    /\ decay (Fin (1 - e)) = Fin dc
    /\ shock rain reqs = Fin sh
    /\ g == 0.012 + 0.018 * e
    /\ 0 <= dc
    /\ (e < 0.4 -> dc == (0.4 - e) * 0.04).
Proof.
  destruct (decay_Fin (1 - e)) as (dc & Edc & Hdc & Hdc').
  exists (GROWTH.baseRate + GROWTH.envFactor * e), dc.
  unfold GROWTH.stressThreshold, GROWTH.decayFactor, GROWTH.baseRate,
    GROWTH.envFactor in *.
  assert (R : forall sh, 0 <= sh -> shock rain reqs = Fin sh ->
    0 <= sh /\ growthRate (Fin e) = Fin (0.012 + 0.018 * e)
    /\ decay (Fin (1 - e)) = Fin dc /\ shock rain reqs = Fin sh
    /\ 0.012 + 0.018 * e == 0.012 + 0.018 * e
    /\ 0 <= dc /\ (e < 0.4 -> dc == (0.4 - e) * 0.04)).
  { intros sh H0 Esh. repeat split; auto; try lra.
    intros He. rewrite Hdc' by lra. lra. }
  destruct (shock_cases rain reqs) as [Esh|Esh].
  - exists 0. apply R; [lra|exact Esh].
  - exists 0.003. apply R; [lra|exact Esh].
Qed.

Lemma numbered_days (tl : list Frame) :
  numbered tl -> map day tl = map Z.of_nat (seq 1 (length tl)).
Proof.
  intros H. apply nth_error_ext. intros n.
  rewrite !nth_error_map.
  destruct (nth_error tl n) as [f|] eqn:E.
  - assert (L : (n < length tl)%nat) by (apply nth_error_Some; congruence).
    rewrite (nth_error_nth' (seq 1 (length tl)) 0%nat)
      by (now rewrite length_seq).
    rewrite seq_nth by exact L. cbn [option_map]. f_equal.
    rewrite (H n f E). lia.
  - apply nth_error_None in E.
    assert (N : nth_error (seq 1 (length tl)) n = None)
      by (apply nth_error_None; now rewrite length_seq).
    now rewrite N.
Qed.

Lemma final_frame_alive (st : LoopState) (f : Frame) :
  shaped 121 st -> nth_error (ls_timeline st) (days - 1) = Some f ->
  alive f = ls_alive st.
Proof.
  intros (L & _ & _ & _ & Hlast) H. apply Hlast.
  replace (length (ls_timeline st) - 1)%nat with (days - 1)%nat; [exact H|].
  unfold days. lia.
Qed.

(** C3.  In the emitted timeline, a frame that is not alive is followed
    only by frames that are not alive. *)
Theorem alive_monotone (climR : Climate.t) (soilR : Soil.t) (reqs : Crop.t)
    (res : SimulationResult) (f1 f2 : Frame) :
  evaluate climR soilR reqs = Some res ->
  In f1 (timeline res) -> In f2 (timeline res) ->
  (day f1 < day f2)%Z ->
  alive f1 = false -> alive f2 = false.
Proof.
  intros H I1 I2 D A.
  destruct (evaluate_inv _ _ _ _ H) as (e & _ & _ & Etl & _).
  destruct (runTimeline_shaped (Fin e) (Fin (1 - e))
              (Climate.annualRainMm climR) reqs) as (_ & Hnum & Hmono & _).
  rewrite <- Etl in Hnum, Hmono.
  apply In_nth_error in I1 as (i & Hi). apply In_nth_error in I2 as (j & Hj).
  apply (Hmono i j f1 f2); auto.
  rewrite (Hnum i f1 Hi), (Hnum j f2 Hj) in D. lia.
Qed.

Lemma alive_monotone_witness :
  evaluate arctic acid wheat = Some barren
  /\ In barren_day21 (timeline barren)
  /\ In barren_day100 (timeline barren)
  /\ (day barren_day21 < day barren_day100)%Z
  /\ alive barren_day21 = false
  /\ alive barren_day100 = false.
Proof.
  assert (E : evaluate arctic acid wheat = Some barren)
    by (vm_compute; reflexivity).
  assert (I1 : In barren_day21 (timeline barren))
    by (apply (nth_error_In _ 20); reflexivity).
  assert (I2 : In barren_day100 (timeline barren))
    by (apply (nth_error_In _ 99); reflexivity).
  assert (D : (day barren_day21 < day barren_day100)%Z) by reflexivity.
  assert (A : alive barren_day21 = false) by reflexivity.
  split; [exact E|]. split; [exact I1|]. split; [exact I2|].
  split; [exact D|]. split; [exact A|].
  exact (alive_monotone arctic acid wheat barren barren_day21 barren_day100
           E I1 I2 D A).
Defined.

(** C4.  The computation returns a result whenever the crop data is
    complete, and the timeline of a result has exactly 120 frames, their
    days are 1, 2, ..., 120 in this order, and every biomass is a finite
    number of [0, 1]. *)
Theorem timeline_shape (climR : Climate.t) (soilR : Soil.t) (reqs : Crop.t) :
  (complete reqs -> exists res, evaluate climR soilR reqs = Some res)
  /\ forall res,
       evaluate climR soilR reqs = Some res ->
       length (timeline res) = 120%nat
       /\ map day (timeline res) = map Z.of_nat (seq 1 120)
       /\ Forall (fun f => exists q, biomass f = Fin q /\ 0 <= q <= 1)
                 (timeline res).
Proof.
  split.
  { intros (_ & _ & [tex E]). exact (evaluate_total climR soilR reqs tex E). }
  intros res H.
  destruct (evaluate_inv _ _ _ _ H) as (e & _ & _ & Etl & _).
  pose proof (runTimeline_length (Fin e) (Fin (1 - e))
                (Climate.annualRainMm climR) reqs) as L.
  destruct (runTimeline_shaped (Fin e) (Fin (1 - e))
              (Climate.annualRainMm climR) reqs) as (_ & Hnum & _).
  destruct (rates_finite e (Climate.annualRainMm climR) reqs)
    as (g & dc & sh & Hsh & Eg & Edc & Esh & _).
  pose proof (runTimeline_unit g dc sh Hsh _ _ _ _ Eg Edc Esh) as U.
  rewrite <- Etl in L, Hnum, U.
  split; [exact L|]. split; [|exact U].
  rewrite (numbered_days _ Hnum), L. reflexivity.
Qed.

Lemma timeline_shape_witness :
  (exists res, evaluate temperate loam wheat = Some res)
  /\ evaluate temperate loam wheat = Some lush
  /\ length (timeline lush) = 120%nat
  /\ map day (timeline lush) = map Z.of_nat (seq 1 120)
  /\ Forall (fun f => exists q, biomass f = Fin q /\ 0 <= q <= 1)
            (timeline lush).
Proof.
  assert (E : evaluate temperate loam wheat = Some lush)
    by (vm_compute; reflexivity).
  split; [|split; [exact E|]].
  - apply (proj1 (timeline_shape temperate loam wheat)).
    repeat split; eexists; reflexivity.
  - exact (proj2 (timeline_shape temperate loam wheat) lush E).
Defined.

(** C9.  If the final frame is not alive, the status is "fail": the
    biomass can only be 0 past day 20 when a day's update cannot lift it
    off zero, and then it is 0 on every day, day 120 included. *)
Theorem dead_is_fail (climR : Climate.t) (soilR : Soil.t) (reqs : Crop.t)
    (res : SimulationResult) (f : Frame) :
  evaluate climR soilR reqs = Some res ->
  nth_error (timeline res) (days - 1) = Some f ->
  alive f = false ->
  status res = "fail"
  /\ Forall (fun f' => exists q, biomass f' = Fin q /\ q == 0) (timeline res).
Proof.
  intros H Hf A.
  destruct (evaluate_inv _ _ _ _ H) as (e & _ & _ & Etl & Est).
  set (rain := Climate.annualRainMm climR) in *.
  pose proof (runTimeline_shaped (Fin e) (Fin (1 - e)) rain reqs) as Sh.
  destruct (rates_finite e rain reqs)
    as (g & dc & sh & Hsh & Eg & Edc & Esh & _).
  assert (Hal : ls_alive (runTimeline (Fin e) (Fin (1 - e)) rain reqs)
                = false).
  { rewrite <- A. symmetry. apply final_frame_alive; [exact Sh|].
    now rewrite <- Etl. }
  destruct (Qlt_le_dec 0 (Qmax 0 (Qmax 0 (Qmin 1 (0 + g - dc)) - sh)))
    as [Pos|Zero].
  - pose proof (runTimeline_thriving g dc sh Hsh _ _ _ _ Eg Edc Esh Pos) as T.
    congruence.
  - assert (Z0 : Qmax 0 (Qmax 0 (Qmin 1 (0 + g - dc)) - sh) == 0).
    { apply Qle_antisym; [exact Zero|]. apply (next_unit g dc sh Hsh 0). }
    pose proof (runTimeline_barren g dc sh Hsh _ _ _ _ Eg Edc Esh Z0) as B.
    rewrite <- Etl in B. split; [|exact B].
    rewrite Hal in Est. unfold statusOf in Est. cbn [negb] in Est.
    rewrite Hf in Est.
    pose proof (proj1 (List.Forall_forall _ _) B f (nth_error_In _ _ Hf))
      as (q & Eq & Hq).
    rewrite Eq in Est. cbn [ltb] in Est.
    assert (L : Qltb q 0.2 = true) by (apply Qltb_lt; lra).
    rewrite L in Est. congruence.
Qed.

Lemma dead_is_fail_witness :
  evaluate arctic acid wheat = Some barren
  /\ nth_error (timeline barren) (days - 1) = Some barren_day120
  /\ alive barren_day120 = false
  /\ status barren = "fail"
  /\ Forall (fun f' => exists q, biomass f' = Fin q /\ q == 0)
            (timeline barren).
Proof.
  assert (E : evaluate arctic acid wheat = Some barren)
    by (vm_compute; reflexivity).
  assert (N : nth_error (timeline barren) (days - 1) = Some barren_day120)
    by reflexivity.
  assert (A : alive barren_day120 = false) by reflexivity.
  repeat apply conj; try assumption;
    apply (dead_is_fail arctic acid wheat barren barren_day120 E N A).
Defined.

(** C2.  When the environmental score is 0 (stress 1), the decay exceeds
    the growth rate, every frame has biomass 0, the frames of days 1 to
    20 are alive and those of days 21 to 120 are not, and the status is
    "fail". *)
Theorem worst_fit_fails (climR : Climate.t) (soilR : Soil.t) (reqs : Crop.t)
    (res : SimulationResult) (e : Q) :
  evaluate climR soilR reqs = Some res ->
  envScore (fits res) = Fin e -> e == 0 ->
  (exists g dc,
      growthRate (Fin e) = Fin g
      /\ decay (sub (Fin 1) (Fin e)) = Fin dc
      /\ g < dc)
  /\ (forall f, In f (timeline res) ->
        (exists q, biomass f = Fin q /\ q == 0)
        /\ alive f = (day f <=? 20)%Z)
  /\ (forall d, (21 <= d <= 120)%Z ->
        exists f, nth_error (timeline res) (Z.to_nat (d - 1)) = Some f
                  /\ day f = d /\ alive f = false)
  /\ status res = "fail".
Proof.
  intros H Ee He.
  destruct (evaluate_inv _ _ _ _ H) as (e' & Ee' & _ & Etl & Est).
  rewrite Ee in Ee'. injection Ee' as <-.
  set (rain := Climate.annualRainMm climR) in *.
  destruct (rates_finite e rain reqs)
    as (g & dc & sh & Hsh & Eg & Edc & Esh & Hg & _ & Hdc).
  specialize (Hdc ltac:(lra)).
  assert (Z0 : Qmax 0 (Qmax 0 (Qmin 1 (0 + g - dc)) - sh) == 0)
    by (qclamp; lra).
  assert (S7 : gtb (Fin (1 - e)) (Fin 0.7) = true)
    by (apply Qltb_lt; lra).
  pose proof (runTimeline_barren g dc sh Hsh _ _ _ _ Eg Edc Esh Z0) as B.
  destruct (runTimeline_dies g dc sh Hsh _ _ _ _ Eg Edc Esh Z0 S7)
    as (Hal & D).
  pose proof (runTimeline_length (Fin e) (Fin (1 - e)) rain reqs) as L.
  destruct (runTimeline_shaped (Fin e) (Fin (1 - e)) rain reqs)
    as (_ & Hnum & _).
  rewrite <- Etl in B, D, L, Hnum.
  rewrite List.Forall_forall in B, D.
  split; [|split; [|split]].
  - exists g, dc. cbn [sub]. repeat split; auto. lra.
  - intros f I. split; [exact (B f I)|exact (D f I)].
  - intros d Hd.
    destruct (nth_error (timeline res) (Z.to_nat (d - 1))) as [f|] eqn:N.
    + exists f. pose proof (Hnum _ _ N) as Df.
      assert (Dd : day f = d) by lia.
      repeat split; auto.
      rewrite (D f (nth_error_In _ _ N)), Dd.
      apply Z.leb_gt. lia.
    + apply nth_error_None in N. lia.
  - rewrite Hal in Est. unfold statusOf in Est. cbn [negb] in Est.
    destruct (nth_error (timeline res) (days - 1)) as [f|] eqn:N;
      [|discriminate].
    destruct (B f (nth_error_In _ _ N)) as (q & Eq & Hq).
    rewrite Eq in Est. cbn [ltb] in Est.
    assert (Lq : Qltb q 0.2 = true) by (apply Qltb_lt; lra).
    rewrite Lq in Est. congruence.
Qed.

Lemma worst_fit_fails_witness :
  evaluate arctic acid wheat = Some barren
  /\ envScore (fits barren) = Fin barren_env
  /\ barren_env == 0
  /\ (exists f, nth_error (timeline barren) (Z.to_nat (21 - 1)) = Some f
                /\ day f = 21%Z /\ alive f = false)
  /\ status barren = "fail".
Proof.
  assert (E : evaluate arctic acid wheat = Some barren)
    by (vm_compute; reflexivity).
  assert (V : envScore (fits barren) = Fin barren_env) by reflexivity.
  assert (Z0 : barren_env == 0) by reflexivity.
  pose proof (worst_fit_fails arctic acid wheat barren barren_env E V Z0)
    as (_ & _ & D & S).
  repeat apply conj; try assumption.
  apply D. lia.
Defined.

(* ================================================================== *)
(** ** Properties of the crop-data check *)

Lemma geminiTry_inr (w : World) (d : Crop.t) :
  geminiTry w = inr d -> geminiAnswer w = inr d /\ complete d.
Proof.
  unfold geminiTry, complete.
  destruct (geminiAnswer w) as [e|parsed]; [discriminate|].
  destruct (Crop.temperatureC parsed) eqn:E1,
           (Crop.soilPh parsed) eqn:E2,
           (Crop.soilTexture parsed) eqn:E3;
    cbn; intros [= <-]; rewrite E1, E2, E3; repeat split; eauto.
Qed.

(** Whatever is served from the provider, from the cache or fresh, has
    the three objects, and the cache keeps only such data. *)
Lemma getCropDataFromGemini_complete (cache cache' : Cache) (w : World)
    (name : string) (d : Crop.t) :
  cacheOk cache ->
  getCropDataFromGemini cache w name = (Some d, cache') ->
  complete d /\ cacheOk cache'.
Proof.
  intros Ok. unfold getCropDataFromGemini.
  destruct (cache !! name) as [c|] eqn:E.
  - intros [= <- <-]. split; [|exact Ok]. exact (Ok name c E).
  - destruct (GEMINI_API_KEY w); cbn [negb]; [|discriminate].
    destruct (geminiTry w) as [e|parsed] eqn:T; [discriminate|].
    intros [= <- <-]. apply geminiTry_inr in T as [_ C].
    split; [exact C|]. apply map_Forall_insert_2; assumption.
Qed.

(** C8.  When the crop data the model answers with lacks [temperatureC],
    [soilPh] or [soilTexture], the provider throws and the handler answers
    404 with an error message, no score and no timeline, and caches
    nothing; with the three objects present the handler answers with a
    result whatever the climate and soil observations are. *)
Theorem incomplete_requirements_rejected (cache : Cache) (w : World)
    (req : Request) (name : string) (parsed : Crop.t) :
  isFiniteOpt (lat req) = true -> isFiniteOpt (lon req) = true ->
  crop req = Some name -> name <> EmptyString ->
  cache !! name = None ->
  GEMINI_API_KEY w = true -> geminiAnswer w = inr parsed ->
  (Crop.temperatureC parsed = None \/ Crop.soilPh parsed = None
   \/ Crop.soilTexture parsed = None ->
   geminiTry w = inl "Invalid JSON structure received from Gemini."
   /\ exists msg, apiSimulate cache w req = (Error 404 msg, cache))
  /\ (forall climR, complete parsed -> climateAnswer w = inr climR ->
      exists r,
        evaluate climR (soilAnswer w) parsed = Some r
        /\ apiSimulate cache w req
           = (Success r, <[name := parsed]> cache)).
Proof.
  intros Hlat Hlon Hcrop Hname Hmiss Hkey Hans.
  assert (G : negb (isFiniteOpt (lat req)) || negb (isFiniteOpt (lon req))
              || negb (nonEmpty (crop req)) = false).
  { rewrite Hlat, Hlon, Hcrop. destruct name; [congruence|reflexivity]. }
  split.
  - intros Inc.
    assert (T : geminiTry w
                = inl "Invalid JSON structure received from Gemini.").
    { unfold geminiTry. rewrite Hans.
      destruct Inc as [-> |[-> | ->]]; cbn [truthy negb orb];
        rewrite ?orb_true_r; reflexivity. }
    split; [exact T|].
    unfold apiSimulate. rewrite G, Hcrop. cbn [nullish].
    unfold getCropDataFromGemini. rewrite Hmiss, Hkey, T. cbn [negb].
    eexists. reflexivity.
  - intros climR (Ht & Hp & Hx) Hclim.
    assert (T : geminiTry w = inr parsed).
    { unfold geminiTry. rewrite Hans.
      destruct Ht as [t ->], Hp as [p ->]. destruct Hx as [x Hx].
      rewrite Hx. reflexivity. }
    destruct Hx as [x Hx].
    destruct (evaluate_total climR (soilAnswer w) parsed x Hx) as (r & Er).
    exists r. split; [exact Er|].
    unfold apiSimulate. rewrite G, Hcrop. cbn [nullish].
    unfold getCropDataFromGemini. rewrite Hmiss, Hkey, T. cbn [negb].
    rewrite Hclim, Er. reflexivity.
Qed.

Lemma incomplete_requirements_rejected_witness :
  (geminiTry (answering textureless loam)
   = inl "Invalid JSON structure received from Gemini."
   /\ exists msg,
        apiSimulate ∅ (answering textureless loam) askWheat
        = (Error 404 msg, ∅))
  /\ exists r,
       evaluate temperate unsurveyed wheat = Some r
       /\ apiSimulate ∅ (answering wheat unsurveyed) askWheat
          = (Success r, <["wheat" := wheat]> ∅).
Proof.
  assert (N : "wheat" <> EmptyString) by discriminate.
  assert (M : (∅ : Cache) !! "wheat" = None) by reflexivity.
  split.
  - apply (proj1 (incomplete_requirements_rejected ∅
                    (answering textureless loam) askWheat "wheat"
                    textureless eq_refl eq_refl eq_refl N M eq_refl eq_refl)).
    right. right. reflexivity.
  - apply (proj2 (incomplete_requirements_rejected ∅
                    (answering wheat unsurveyed) askWheat "wheat"
                    wheat eq_refl eq_refl eq_refl N M eq_refl eq_refl)
             temperate).
    + repeat split; eexists; reflexivity.
    + reflexivity.
Defined.

(* ================================================================== *)
(** ** More on the result: score, status, stages and limits *)

(** Everything a returned result is made of. *)
Lemma evaluate_parts (climR : Climate.t) (soilR : Soil.t) (reqs : Crop.t)
    (res : SimulationResult) :
  evaluate climR soilR reqs = Some res ->
  exists soilQ c s,
    soilQuality (nullish (Soil.ph soilR) NaN) (nullish (Soil.clay soilR) NaN)
      (nullish (Soil.sand soilR) NaN) (nullish (Soil.soc soilR) NaN) reqs
    = Some soilQ
    /\ exceeds (nullish (Soil.clay soilR) NaN) (Crop.soilTexture reqs) clayMax
       = Some c
    /\ exceeds (nullish (Soil.sand soilR) NaN) (Crop.soilTexture reqs) sandMax
       = Some s
    /\ fits res
       = mkFits (rangeFit (Climate.tempC climR) (Crop.temperatureC reqs))
           (rangeFit (Climate.annualRainMm climR)
              (Crop.annualRainfallMm reqs))
           (rangeFit (Climate.solarMJm2day climR) (Crop.solarMJm2day reqs))
           soilQ
    /\ score res = Math_round (mul (envScore (fits res)) (Fin 100))
    /\ limits res
       = pushIf s "Soil too sandy (low water retention)"
           (pushIf c "Soil too clayey (poor drainage)"
              (pushIf
                 (ltb (rangeFit (nullish (Soil.ph soilR) NaN)
                         (Crop.soilPh reqs)) (Fin 0.5))
                 "Soil pH unsuitable"
                 (pushIf (ltb (solar (fits res)) (Fin 0.4))
                    "Suboptimal solar radiation"
                    (pushIf (ltb (rainfall (fits res)) (Fin 0.4))
                       "Insufficient or excessive rainfall"
                       (pushIf (ltb (temperature (fits res)) (Fin 0.4))
                          "Temperature outside comfortable range" []))))).
Proof.
  unfold evaluate. intros H.
  destruct (soilQuality _ _ _ _ reqs) as [sq|] eqn:Esq; [|discriminate].
  destruct (statusOf _ _ _) as [stat|] eqn:Est; [|discriminate].
  destruct (exceeds _ _ clayMax) as [c|] eqn:Ec; [|discriminate].
  destruct (exceeds _ _ sandMax) as [sd|] eqn:Es; [|discriminate].
  apply (inj Some) in H. subst res.
  cbn [fits score limits temperature rainfall solar].
  exists sq, c, sd.
  split; [reflexivity|]. split; [reflexivity|]. split; [reflexivity|].
  split; [reflexivity|]. split; reflexivity.
Qed.

Lemma decay_low (s : Q) :
  s <= GROWTH.stressThreshold -> decay (Fin s) = Fin 0.
Proof.
  intros H. unfold decay, gtb, ltb.
  assert (E : Qltb GROWTH.stressThreshold s = false) by (apply Qltb_ge; exact H).
  now rewrite E.
Qed.

(** The loop's flag is false only when no day lifts the biomass off
    zero, and then every frame has biomass 0. *)
Lemma run_dead_barren (e : Q) (rain : number) (reqs : Crop.t) :
  ls_alive (runTimeline (Fin e) (Fin (1 - e)) rain reqs) = false ->
  Forall (fun f => exists q, biomass f = Fin q /\ q == 0)
         (ls_timeline (runTimeline (Fin e) (Fin (1 - e)) rain reqs)).
Proof.
  intros Hal.
  destruct (rates_finite e rain reqs)
    as (g & dc & sh & Hsh & Eg & Edc & Esh & _).
  destruct (Qlt_le_dec 0 (Qmax 0 (Qmax 0 (Qmin 1 (0 + g - dc)) - sh)))
    as [Pos|Zero].
  - pose proof (runTimeline_thriving g dc sh Hsh _ _ _ _ Eg Edc Esh Pos) as T.
    congruence.
  - apply (runTimeline_barren g dc sh Hsh _ _ _ _ Eg Edc Esh).
    apply Qle_antisym; [exact Zero|]. apply (next_unit g dc sh Hsh 0).
Qed.

Lemma round_percent (e : Q) :
  0 <= e <= 1 ->
  exists n : Z,
    Math_round (mul (Fin e) (Fin 100)) = Fin (inject_Z n)
    /\ (0 <= n <= 100)%Z
    /\ inject_Z n <= e * 100 + 0.5 /\ e * 100 + 0.5 < inject_Z n + 1.
Proof.
  intros He. cbn [mul Math_round]. unfold round_half_up.
  exists (Qfloor (e * 100 + 0.5)). split; [reflexivity|].
  assert (L : (Qfloor 0.5 <= Qfloor (e * 100 + 0.5))%Z)
    by (apply Qfloor_resp_le; lra).
  assert (U : (Qfloor (e * 100 + 0.5) <= Qfloor 100.5)%Z)
    by (apply Qfloor_resp_le; lra).
  change (Qfloor 0.5) with 0%Z in L. change (Qfloor 100.5) with 100%Z in U.
  split; [lia|]. split; [apply Qfloor_le|].
  pose proof (Qlt_floor (e * 100 + 0.5)) as F.
  rewrite inject_Z_plus in F. exact F.
Qed.

Lemma ltb_inject_Z (n m : Z) :
  ltb (Fin (inject_Z n)) (Fin (inject_Z m)) = (n <? m)%Z.
Proof.
  cbn [ltb]. destruct (Z.ltb_spec n m) as [H|H].
  - apply Qltb_lt. rewrite <- Zlt_Qlt. exact H.
  - apply Qltb_ge. rewrite <- Zle_Qle. exact H.
Qed.

Lemma statusOf_classes (a : bool) (tl : list Frame) (n : Z) (f : Frame) :
  nth_error tl (days - 1) = Some f ->
  (a = false -> exists q, biomass f = Fin q /\ q == 0) ->
  statusOf a tl (Fin (inject_Z n))
  = Some (if a
          then if (n <? 60)%Z then "struggle"
               else if (n <? 80)%Z then "good" else "great"
          else "fail").
Proof.
  intros Hf Hz. unfold statusOf.
  change (Fin 60) with (Fin (inject_Z 60)).
  change (Fin 80) with (Fin (inject_Z 80)).
  rewrite !ltb_inject_Z. destruct a; cbn [negb]; [reflexivity|].
  rewrite Hf. destruct (Hz eq_refl) as (q & -> & Hq). cbn [ltb].
  assert (L : Qltb q 0.2 = true) by (apply Qltb_lt; lra).
  now rewrite L.
Qed.

(** The status, read off the loop's flag and the rounded score. *)
Lemma status_by_alive (climR : Climate.t) (soilR : Soil.t) (reqs : Crop.t)
    (res : SimulationResult) (e : Q) :
  evaluate climR soilR reqs = Some res ->
  envScore (fits res) = Fin e ->
  exists n : Z,
    score res = Fin (inject_Z n) /\ (0 <= n <= 100)%Z
    /\ inject_Z n <= e * 100 + 0.5 /\ e * 100 + 0.5 < inject_Z n + 1
    /\ status res
       = if ls_alive (runTimeline (Fin e) (Fin (1 - e))
                        (Climate.annualRainMm climR) reqs)
         then if (n <? 60)%Z then "struggle"
              else if (n <? 80)%Z then "good" else "great"
         else "fail".
Proof.
  intros H Ee.
  destruct (evaluate_inv _ _ _ _ H) as (e' & Ee' & He & Etl & Est).
  assert (e' = e) by congruence. subst e'. clear Ee'.
  destruct (evaluate_parts _ _ _ _ H) as (_ & _ & _ & _ & _ & _ & _ & Esc & _).
  rewrite Ee in Esc.
  destruct (round_percent e He) as (n & En & Hn & Hlo & Hhi).
  rewrite En in Esc. exists n.
  split; [exact Esc|]. split; [exact Hn|]. split; [exact Hlo|].
  split; [exact Hhi|].
  pose proof (runTimeline_length (Fin e) (Fin (1 - e))
                (Climate.annualRainMm climR) reqs) as L.
  pose proof (run_dead_barren e (Climate.annualRainMm climR) reqs) as B.
  rewrite <- Etl in B, L.
  destruct (nth_error (timeline res) (days - 1)) as [f|] eqn:Hf.
  - rewrite Esc in Est.
    rewrite (statusOf_classes _ (timeline res) n f Hf) in Est.
    + apply (inj Some) in Est. symmetry. exact Est.
    + intros A.
      exact (proj1 (List.Forall_forall _ _) (B A) f (nth_error_In _ _ Hf)).
  - apply nth_error_None in Hf. unfold days in Hf. lia.
Qed.

(** X1.  The score is a whole number from 0 to 100; the status is "fail"
    exactly when the final frame is not alive, and otherwise "struggle"
    below 60, "good" below 80 and "great" from 80 on. *)
Theorem status_classes (climR : Climate.t) (soilR : Soil.t) (reqs : Crop.t)
    (res : SimulationResult) (f : Frame) :
  evaluate climR soilR reqs = Some res ->
  nth_error (timeline res) (days - 1) = Some f ->
  exists n : Z,
    score res = Fin (inject_Z n) /\ (0 <= n <= 100)%Z
    /\ status res
       = if alive f
         then if (n <? 60)%Z then "struggle"
              else if (n <? 80)%Z then "good" else "great"
         else "fail".
Proof.
  intros H Hf.
  destruct (evaluate_inv _ _ _ _ H) as (e & Ee & _ & Etl & _).
  destruct (status_by_alive _ _ _ _ e H Ee) as (n & Esc & Hn & _ & _ & Est).
  exists n. split; [exact Esc|]. split; [exact Hn|].
  pose proof (runTimeline_shaped (Fin e) (Fin (1 - e))
                (Climate.annualRainMm climR) reqs) as Sh.
  assert (Hal : alive f
                = ls_alive (runTimeline (Fin e) (Fin (1 - e))
                              (Climate.annualRainMm climR) reqs)).
  { apply final_frame_alive; [exact Sh|]. now rewrite <- Etl. }
  rewrite Hal. exact Est.
Qed.

Lemma status_classes_witness :
  evaluate temperate loam wheat = Some lush
  /\ exists f n,
       nth_error (timeline lush) (days - 1) = Some f
       /\ score lush = Fin (inject_Z n) /\ (0 <= n <= 100)%Z
       /\ status lush
          = if alive f
            then if (n <? 60)%Z then "struggle"
                 else if (n <? 80)%Z then "good" else "great"
            else "fail".
Proof.
  assert (E : evaluate temperate loam wheat = Some lush)
    by (vm_compute; reflexivity).
  split; [exact E|].
  eexists.
  assert (N : nth_error (timeline lush) (days - 1)
              = Some (nth 119 (timeline lush) noFrame)) by reflexivity.
  destruct (status_classes temperate loam wheat lush _ E N) as (n & Hn).
  exists n. split; [exact N|exact Hn].
Defined.



Lemma runTimeline_stages (env stress rain : number) (reqs : Crop.t) :
  Forall (fun f => stage f = stageOf (day f))
         (ls_timeline (runTimeline env stress rain reqs)).
Proof.
  unfold runTimeline.
  apply (forLoop_invariant
           (fun _ st => Forall (fun f => stage f = stageOf (day f))
                               (ls_timeline st))).
  - intros d st Hall. unfold loopBody. cbn [ls_timeline].
    apply Forall_app. split; [exact Hall|].
    constructor; [reflexivity|constructor].
  - constructor.
Qed.

(** X3.  The stage of a frame depends on its day alone: days 1 to 6 are
    "pre-germination", 7 to 44 "germination", 45 to 79 "flowering" and
    80 to 120 "maturity"; the [grainfill] marker selects nothing. *)
Theorem stage_by_day (climR : Climate.t) (soilR : Soil.t) (reqs : Crop.t)
    (res : SimulationResult) (f : Frame) :
  evaluate climR soilR reqs = Some res ->
  In f (timeline res) ->
  (1 <= day f <= 120)%Z
  /\ (stage f = "pre-germination" <-> (day f <= 6)%Z)
  /\ (stage f = "germination" <-> (7 <= day f <= 44)%Z)
  /\ (stage f = "flowering" <-> (45 <= day f <= 79)%Z)
  /\ (stage f = "maturity" <-> (80 <= day f)%Z).
Proof.
  intros H I.
  destruct (evaluate_inv _ _ _ _ H) as (e & _ & _ & Etl & _).
  pose proof (runTimeline_stages (Fin e) (Fin (1 - e))
                (Climate.annualRainMm climR) reqs) as St.
  pose proof (runTimeline_length (Fin e) (Fin (1 - e))
                (Climate.annualRainMm climR) reqs) as L.
  destruct (runTimeline_shaped (Fin e) (Fin (1 - e))
              (Climate.annualRainMm climR) reqs) as (_ & Hnum & _).
  rewrite <- Etl in St, L, Hnum.
  rewrite (proj1 (List.Forall_forall _ _) St f I).
  apply In_nth_error in I as (i & Hi).
  assert (Li : (i < 120)%nat) by (rewrite <- L; apply nth_error_Some; congruence).
  pose proof (Hnum i f Hi) as D.
  split; [lia|]. unfold stageOf, stageMarkers.germination,
    stageMarkers.vegetative, stageMarkers.flowering.
  destruct (Z.ltb_spec (day f) 7); [|destruct (Z.ltb_spec (day f) 45);
    [|destruct (Z.ltb_spec (day f) 80)]];
    repeat split; intros; try lia; try discriminate; reflexivity.
Qed.

Lemma stage_by_day_witness :
  evaluate arctic acid wheat = Some barren
  /\ In barren_day100 (timeline barren)
  /\ (1 <= day barren_day100 <= 120)%Z
  /\ (stage barren_day100 = "maturity" <-> (80 <= day barren_day100)%Z).
Proof.
  assert (E : evaluate arctic acid wheat = Some barren)
    by (vm_compute; reflexivity).
  assert (I : In barren_day100 (timeline barren))
    by (apply (nth_error_In _ 99); reflexivity).
  split; [exact E|]. split; [exact I|].
  destruct (stage_by_day arctic acid wheat barren barren_day100 E I)
    as (D & _ & _ & _ & M).
  split; [exact D|exact M].
Defined.

Lemma In_pushIf (s s' : string) (c : bool) (l : list string) :
  In s (pushIf c s' l) <-> In s l \/ (c = true /\ s' = s).
Proof.
  unfold pushIf. destruct c.
  - rewrite in_app_iff. cbn [In]. intuition congruence.
  - intuition congruence.
Qed.

(** A fit below 0.4 is a hard exclusion: a finite value outside
    [min, max] of a range that is present. *)
Lemma rangeFit_excluded (v : number) (r : option ThresholdRange) :
  ltb (rangeFit v r) (Fin 0.4) = true
  <-> exists x r', v = Fin x /\ r = Some r' /\ (x < min r' \/ max r' < x).
Proof.
  destruct v as [x| | |], r as [r|];
    try (split; [discriminate|intros (x' & r' & ? & ? & _); discriminate]).
  destruct (rangeFit_cases x r) as [[C E]|[[C E]|[[C E]|[C E]]]]; rewrite E.
  - split; [|reflexivity]. intros _. exists x, r. auto.
  - split; [discriminate|]. intros (x' & r' & [= <-] & [= <-] & O). lra.
  - destruct (ratio_unit (idealMin r - x) (idealMin r - min r)); try lra.
    split.
    + cbn [ltb]. intros L. apply Qltb_lt in L. qclamp. lra.
    + intros (x' & r' & [= <-] & [= <-] & O). lra.
  - destruct (ratio_unit (x - idealMax r) (max r - idealMax r)); try lra.
    split.
    + cbn [ltb]. intros L. apply Qltb_lt in L. qclamp. lra.
    + intros (x' & r' & [= <-] & [= <-] & O). lra.
Qed.

Lemma exceeds_true (v : number) (tex : option SoilTexture)
    (key : SoilTexture -> Q) :
  exceeds v tex key = Some true
  <-> exists x t, v = Fin x /\ tex = Some t /\ key t < x.
Proof.
  unfold exceeds. destruct v as [x| | |]; cbn [isFinite];
    try (split; [discriminate|intros (x' & t & ? & _); discriminate]).
  destruct tex as [t|];
    [|split; [discriminate|intros (x' & t & _ & ? & _); discriminate]].
  cbn [gtb ltb]. split.
  - intros [= L]. apply Qltb_lt in L. exists x, t. auto.
  - intros (x' & t' & [= <-] & [= <-] & L). apply Qltb_lt in L. now rewrite L.
Qed.

(** X4.  The temperature, rainfall and solar warnings are listed exactly
    when the observation is finite and outside [min, max] of the crop's
    range (never for a merely suboptimal value); the clay and sand
    warnings exactly when the finite observation exceeds the crop's
    maximum. *)
Theorem limits_meaning (climR : Climate.t) (soilR : Soil.t) (reqs : Crop.t)
    (res : SimulationResult) :
  evaluate climR soilR reqs = Some res ->
  (In "Temperature outside comfortable range" (limits res)
   <-> exists x r, Climate.tempC climR = Fin x
                   /\ Crop.temperatureC reqs = Some r
                   /\ (x < min r \/ max r < x))
  /\ (In "Insufficient or excessive rainfall" (limits res)
      <-> exists x r, Climate.annualRainMm climR = Fin x
                      /\ Crop.annualRainfallMm reqs = Some r
                      /\ (x < min r \/ max r < x))
  /\ (In "Suboptimal solar radiation" (limits res)
      <-> exists x r, Climate.solarMJm2day climR = Fin x
                      /\ Crop.solarMJm2day reqs = Some r
                      /\ (x < min r \/ max r < x))
  /\ (In "Soil too clayey (poor drainage)" (limits res)
      <-> exists x t, nullish (Soil.clay soilR) NaN = Fin x
                      /\ Crop.soilTexture reqs = Some t /\ clayMax t < x)
  /\ (In "Soil too sandy (low water retention)" (limits res)
      <-> exists x t, nullish (Soil.sand soilR) NaN = Fin x
                      /\ Crop.soilTexture reqs = Some t /\ sandMax t < x).
Proof.
  intros H.
  destruct (evaluate_parts _ _ _ _ H) as (sq & c & s & _ & Ec & Es & Ef & _ & El).
  rewrite El, Ef. cbn [temperature rainfall solar].
  rewrite <- !rangeFit_excluded, <- !exceeds_true, Ec, Es.
  rewrite !In_pushIf. cbn [In].
  repeat split; intros; intuition (try discriminate; try congruence).
Qed.

Lemma limits_meaning_witness :
  evaluate arctic acid wheat = Some barren
  /\ In "Temperature outside comfortable range" (limits barren)
  /\ ~ In "Soil too clayey (poor drainage)" (limits barren).
Proof.
  assert (E : evaluate arctic acid wheat = Some barren)
    by (vm_compute; reflexivity).
  split; [exact E|].
  destruct (limits_meaning arctic acid wheat barren E)
    as (T & _ & _ & C & _).
  split.
  - apply T. exists (-20), (mkRange 3 32 15 24).
    split; [reflexivity|]. split; [reflexivity|]. left. cbn. lra.
  - intros I. apply C in I as (x & t & Ex & Et & L).
    cbn in Ex, Et. injection Ex as <-. injection Et as <-. cbn in L. lra.
Defined.

(** X5.  The limits are listed in one fixed order, each at most once. *)
Theorem limits_order (climR : Climate.t) (soilR : Soil.t) (reqs : Crop.t)
    (res : SimulationResult) :
  evaluate climR soilR reqs = Some res ->
  sublist (limits res)
    ["Temperature outside comfortable range";
     "Insufficient or excessive rainfall";
     "Suboptimal solar radiation";
     "Soil pH unsuitable";
     "Soil too clayey (poor drainage)";
     "Soil too sandy (low water retention)"].
Proof.
  intros H.
  destruct (evaluate_parts _ _ _ _ H) as (sq & c & s & _ & _ & _ & _ & _ & El).
  rewrite El. unfold pushIf.
  destruct s, c, (ltb (rangeFit _ (Crop.soilPh reqs)) _),
    (ltb (solar _) _), (ltb (rainfall _) _), (ltb (temperature _) _);
    cbn [app];
    repeat first [apply sublist_nil_l | apply sublist_skip | apply sublist_cons].
Qed.

Lemma limits_order_witness :
  evaluate arctic acid wheat = Some barren
  /\ sublist (limits barren)
       ["Temperature outside comfortable range";
        "Insufficient or excessive rainfall";
        "Suboptimal solar radiation";
        "Soil pH unsuitable";
        "Soil too clayey (poor drainage)";
        "Soil too sandy (low water retention)"].
Proof.
  assert (E : evaluate arctic acid wheat = Some barren)
    by (vm_compute; reflexivity).
  split; [exact E|]. exact (limits_order arctic acid wheat barren E).
Defined.

(* ================================================================== *)
(** ** More on the timeline: rounding, growth over the days, and the
       effect of the environmental score *)

Lemma toFixed3_unit_eq (q : Q) :
  0 <= q <= 1 ->
  toFixed3 (Fin q) = Fin (inject_Z (Qfloor (q * 1000 + 0.5)) / 1000)
  /\ (0 <= Qfloor (q * 1000 + 0.5) <= 1000)%Z.
Proof.
  intros [H0 H1]. unfold toFixed3.
  assert (B : 1 < inject_Z (10 ^ 21)) by reflexivity.
  assert (A : Qabs q == q) by (apply Qabs_pos; exact H0).
  assert (E1 : Qle_bool (inject_Z (10 ^ 21)) (Qabs q) = false).
  { apply Qle_bool_gt. rewrite A. apply Qle_lt_trans with 1; [lra|exact B]. }
  assert (E2 : Qltb q 0 = false) by (apply Qltb_ge; exact H0).
  rewrite E1, E2. unfold round_half_up. split; [reflexivity|].
  assert (L : (Qfloor 0.5 <= Qfloor (q * 1000 + 0.5))%Z)
    by (apply Qfloor_resp_le; lra).
  assert (U : (Qfloor (q * 1000 + 0.5) <= Qfloor 1000.5)%Z)
    by (apply Qfloor_resp_le; lra).
  change (Qfloor 0.5) with 0%Z in L.
  change (Qfloor 1000.5) with 1000%Z in U. lia.
Qed.

Lemma toFixed3_mono (q q' : Q) :
  0 <= q -> q <= q' -> q' <= 1 ->
  numLe (toFixed3 (Fin q)) (toFixed3 (Fin q')).
Proof.
  intros H0 H H1.
  destruct (toFixed3_unit_eq q) as (E & _); [lra|].
  destruct (toFixed3_unit_eq q') as (E' & _); [lra|].
  rewrite E, E'. do 2 eexists. split; [reflexivity|]. split; [reflexivity|].
  unfold Qdiv. apply Qmult_le_compat_r; [|discriminate].
  rewrite <- Zle_Qle. apply Qfloor_resp_le. lra.
Qed.

Lemma numLe_trans (a b c : number) : numLe a b -> numLe b c -> numLe a c.
Proof.
  intros (x & y & -> & -> & H) (y' & z & [= <-] & -> & H').
  exists x, z. repeat split; auto. lra.
Qed.

Lemma numLe_refl_of (a b : number) : numLe a b -> numLe b b.
Proof.
  intros (x & y & -> & -> & H). exists y, y. repeat split; auto. lra.
Qed.

Lemma forLoop_invariant2 {S T : Type} (R : Z -> S -> T -> Prop)
    (body1 : Z -> S -> S) (body2 : Z -> T -> T) :
  (forall d s t, R d s t -> R (d + 1)%Z (body1 d s) (body2 d t)) ->
  forall n d s t,
    R d s t ->
    R (d + Z.of_nat n)%Z (forLoop n d body1 s) (forLoop n d body2 t).
Proof.
  intros step. induction n as [|n IH]; intros d s t H.
  - cbn [forLoop]. now replace (d + Z.of_nat 0)%Z with d by lia.
  - cbn [forLoop].
    replace (d + Z.of_nat (Datatypes.S n))%Z with ((d + 1) + Z.of_nat n)%Z
      by lia.
    apply IH, step, H.
Qed.

Section Rising.

Variables g dc sh : Q.
Hypothesis sh_nonneg : 0 <= sh.
Variables env stress rain : number.
Variable reqs : Crop.t.
Hypothesis growthRate_is : growthRate env = Fin g.
Hypothesis decay_is : decay stress = Fin dc.
Hypothesis shock_is : shock rain reqs = Fin sh.

Local Abbreviation next b := (Qmax 0 (Qmax 0 (Qmin 1 (b + g - dc)) - sh)).
Local Abbreviation run := (runTimeline env stress rain reqs).

(** From one frame to a later one the biomass does not decrease. *)
Lemma runTimeline_rising (i j : nat) (fi fj : Frame) :
  (i <= j)%nat ->
  nth_error (ls_timeline run) i = Some fi ->
  nth_error (ls_timeline run) j = Some fj ->
  numLe (biomass fi) (biomass fj).
Proof.
  pose (P := fun (_ : Z) (st : LoopState) =>
    (exists b, ls_biomass st = Fin b /\ 0 <= b /\ b <= 1 /\ b <= next b
       /\ forall i f, nth_error (ls_timeline st) i = Some f ->
                      numLe (biomass f) (toFixed3 (Fin b)))
    /\ forall i j fi fj, (i <= j)%nat ->
         nth_error (ls_timeline st) i = Some fi ->
         nth_error (ls_timeline st) j = Some fj ->
         numLe (biomass fi) (biomass fj)).
  assert (H : P (1 + Z.of_nat days)%Z run).
  { unfold runTimeline. apply (forLoop_invariant P).
    - intros d st ((b & Eb & Hb0 & Hb1 & Hup & Hcur) & Hsort).
      unfold P, loopBody. cbn [ls_biomass ls_timeline].
      rewrite Eb, (grow_Fin g dc sh env stress rain reqs
                     growthRate_is decay_is shock_is).
      pose proof (next_unit g dc sh sh_nonneg b) as [Hn0 Hn1].
      pose proof (toFixed3_mono b (next b) Hb0 Hup Hn1) as Hr.
      split.
      + exists (next b). split; [reflexivity|]. split; [exact Hn0|].
        split; [exact Hn1|]. split.
        * apply (next_mono g dc sh sh_nonneg). exact Hup.
        * intros k f Hk. apply nth_error_snoc in Hk as [[Lk Hk]|[-> ->]].
          -- exact (numLe_trans _ _ _ (Hcur k f Hk) Hr).
          -- cbn [biomass]. exact (numLe_refl_of _ _ Hr).
      + intros k l fk fl Lkl Hk Hl.
        apply nth_error_snoc in Hk as [[Lk Hk]|[-> ->]];
          apply nth_error_snoc in Hl as [[Ll Hl]|[-> ->]]; try lia.
        * exact (Hsort k l fk fl Lkl Hk Hl).
        * cbn [biomass]. exact (numLe_trans _ _ _ (Hcur k fk Hk) Hr).
        * cbn [biomass]. exact (numLe_refl_of _ _ Hr).
    - split.
      + exists 0. split; [reflexivity|]. split; [lra|]. split; [lra|].
        split; [apply (next_unit g dc sh sh_nonneg 0)|].
        intros [|k] f Hk; discriminate Hk.
      + intros [|k] l fk fl _ Hk; discriminate Hk. }
  exact (proj2 H i j fi fj).
Qed.

(** Every emitted biomass is a whole number of thousandths. *)
Lemma runTimeline_thousandths :
  Forall (fun f => exists k : Z, (0 <= k <= 1000)%Z
                                 /\ biomass f = Fin (inject_Z k / 1000))
         (ls_timeline run).
Proof.
  pose (P := fun (_ : Z) (st : LoopState) =>
    (exists b, ls_biomass st = Fin b /\ 0 <= b <= 1)
    /\ Forall (fun f => exists k : Z, (0 <= k <= 1000)%Z
                                      /\ biomass f = Fin (inject_Z k / 1000))
              (ls_timeline st)).
  assert (H : P (1 + Z.of_nat days)%Z run).
  { unfold runTimeline. apply (forLoop_invariant P).
    - intros d st ((b & Eb & Hb) & Hall). unfold P, loopBody.
      cbn [ls_biomass ls_timeline].
      rewrite Eb, (grow_Fin g dc sh env stress rain reqs
                     growthRate_is decay_is shock_is).
      pose proof (next_unit g dc sh sh_nonneg b) as Hn. split.
      + eexists. split; [reflexivity|]. lra.
      + apply Forall_app. split; [exact Hall|].
        constructor; [|constructor]. cbn [biomass].
        destruct (toFixed3_unit_eq (next b)) as (E & Hk); [lra|].
        eexists. split; [exact Hk|exact E].
    - split; [exists 0; split; [reflexivity|lra]|constructor]. }
  exact (proj2 H).
Qed.

End Rising.

(** X6.  Over the days of a timeline the emitted biomass never decreases:
    decay and the rainfall shock can hold it at zero but cannot lower
    it. *)
Theorem biomass_never_decreases (climR : Climate.t) (soilR : Soil.t)
    (reqs : Crop.t) (res : SimulationResult) (i j : nat) (fi fj : Frame) :
  evaluate climR soilR reqs = Some res ->
  (i <= j)%nat ->
  nth_error (timeline res) i = Some fi ->
  nth_error (timeline res) j = Some fj ->
  exists x y, biomass fi = Fin x /\ biomass fj = Fin y /\ x <= y.
Proof.
  intros H L Hi Hj.
  destruct (evaluate_inv _ _ _ _ H) as (e & _ & _ & Etl & _).
  destruct (rates_finite e (Climate.annualRainMm climR) reqs)
    as (g & dc & sh & Hsh & Eg & Edc & Esh & _).
  rewrite Etl in Hi, Hj.
  exact (runTimeline_rising g dc sh Hsh _ _ _ _ Eg Edc Esh i j fi fj L Hi Hj).
Qed.

Lemma biomass_never_decreases_witness :
  evaluate temperate loam wheat = Some lush
  /\ exists fi fj x y,
       nth_error (timeline lush) 2 = Some fi
       /\ nth_error (timeline lush) 50 = Some fj
       /\ biomass fi = Fin x /\ biomass fj = Fin y /\ x <= y.
Proof.
  assert (E : evaluate temperate loam wheat = Some lush)
    by (vm_compute; reflexivity).
  split; [exact E|].
  assert (N2 : nth_error (timeline lush) 2
               = Some (nth 2 (timeline lush) noFrame)) by reflexivity.
  assert (N50 : nth_error (timeline lush) 50
                = Some (nth 50 (timeline lush) noFrame)) by reflexivity.
  assert (L : (2 <= 50)%nat) by lia.
  destruct (biomass_never_decreases temperate loam wheat lush 2 50 _ _
              E L N2 N50) as (x & y & Hx & Hy & Hxy).
  do 2 eexists. exists x, y.
  split; [exact N2|]. split; [exact N50|]. auto.
Defined.

(** X7.  Every emitted biomass is a whole number of thousandths between
    0 and 1. *)
Theorem biomass_three_decimals (climR : Climate.t) (soilR : Soil.t)
    (reqs : Crop.t) (res : SimulationResult) (f : Frame) :
  evaluate climR soilR reqs = Some res ->
  In f (timeline res) ->
  exists k : Z, (0 <= k <= 1000)%Z /\ biomass f = Fin (inject_Z k / 1000).
Proof.
  intros H I.
  destruct (evaluate_inv _ _ _ _ H) as (e & _ & _ & Etl & _).
  destruct (rates_finite e (Climate.annualRainMm climR) reqs)
    as (g & dc & sh & Hsh & Eg & Edc & Esh & _).
  pose proof (runTimeline_thousandths g dc sh Hsh _ _ _ _ Eg Edc Esh) as T.
  rewrite <- Etl in T.
  exact (proj1 (List.Forall_forall _ _) T f I).
Qed.

Lemma biomass_three_decimals_witness :
  evaluate temperate loam wheat = Some lush
  /\ exists f k,
       In f (timeline lush)
       /\ (0 <= k <= 1000)%Z /\ biomass f = Fin (inject_Z k / 1000).
Proof.
  assert (E : evaluate temperate loam wheat = Some lush)
    by (vm_compute; reflexivity).
  split; [exact E|].
  assert (I : In (nth 2 (timeline lush) noFrame) (timeline lush))
    by (apply (nth_error_In _ 2); reflexivity).
  destruct (biomass_three_decimals temperate loam wheat lush _ E I)
    as (k & Hk).
  eexists. exists k. split; [exact I|exact Hk].
Defined.

Section Comparison.

(** Two runs: the second grows no slower, decays no faster, suffers no
    larger shock and is under no more stress than the first. *)
Variables g1 dc1 sh1 g2 dc2 sh2 : Q.
Hypothesis sh1_nonneg : 0 <= sh1.
Hypothesis sh2_nonneg : 0 <= sh2.
Hypothesis g_le : g1 <= g2.
Hypothesis dc_le : dc2 <= dc1.
Hypothesis sh_le : sh2 <= sh1.
Variables env1 stress1 rain1 env2 stress2 rain2 : number.
Variables reqs1 reqs2 : Crop.t.
Hypothesis growthRate1 : growthRate env1 = Fin g1.
Hypothesis decay1 : decay stress1 = Fin dc1.
Hypothesis shock1 : shock rain1 reqs1 = Fin sh1.
Hypothesis growthRate2 : growthRate env2 = Fin g2.
Hypothesis decay2 : decay stress2 = Fin dc2.
Hypothesis shock2 : shock rain2 reqs2 = Fin sh2.
Hypothesis stress_le :
  gtb stress2 (Fin 0.7) = true -> gtb stress1 (Fin 0.7) = true.

Lemma next_mono2 (b1 b2 : Q) :
  b1 <= b2 ->
  Qmax 0 (Qmax 0 (Qmin 1 (b1 + g1 - dc1)) - sh1)
  <= Qmax 0 (Qmax 0 (Qmin 1 (b2 + g2 - dc2)) - sh2).
Proof. intros H. qclamp. lra. Qed.

Lemma runTimeline_compare :
  Forall2 (fun f1 f2 =>
             day f1 = day f2 /\ numLe (biomass f1) (biomass f2)
             /\ (alive f1 = true -> alive f2 = true))
          (ls_timeline (runTimeline env1 stress1 rain1 reqs1))
          (ls_timeline (runTimeline env2 stress2 rain2 reqs2)).
Proof.
  pose (R := fun (_ : Z) (s t : LoopState) =>
    (exists b1 b2, ls_biomass s = Fin b1 /\ ls_biomass t = Fin b2
                   /\ 0 <= b1 /\ b1 <= b2 /\ b2 <= 1)
    /\ (ls_alive s = true -> ls_alive t = true)
    /\ Forall2 (fun f1 f2 =>
                  day f1 = day f2 /\ numLe (biomass f1) (biomass f2)
                  /\ (alive f1 = true -> alive f2 = true))
               (ls_timeline s) (ls_timeline t)).
  assert (H : R (1 + Z.of_nat days)%Z
                (runTimeline env1 stress1 rain1 reqs1)
                (runTimeline env2 stress2 rain2 reqs2)).
  { unfold runTimeline. apply (forLoop_invariant2 R).
    - intros d s t ((b1 & b2 & E1 & E2 & H0 & H12 & H1) & Ha & Hall).
      unfold R, loopBody. cbn [ls_biomass ls_alive ls_timeline].
      rewrite E1, E2.
      rewrite (grow_Fin g1 dc1 sh1 env1 stress1 rain1 reqs1
                 growthRate1 decay1 shock1).
      rewrite (grow_Fin g2 dc2 sh2 env2 stress2 rain2 reqs2
                 growthRate2 decay2 shock2).
      pose proof (next_unit g1 dc1 sh1 sh1_nonneg b1) as [N1 _].
      pose proof (next_unit g2 dc2 sh2 sh2_nonneg b2) as [_ N2].
      pose proof (next_mono2 b1 b2 H12) as N12.
      set (n1 := Qmax 0 (Qmax 0 (Qmin 1 (b1 + g1 - dc1)) - sh1)) in *.
      set (n2 := Qmax 0 (Qmax 0 (Qmin 1 (b2 + g2 - dc2)) - sh2)) in *.
      assert (A : (if eqb (Fin n1) (Fin 0) && (20 <? d)%Z
                      && gtb stress1 (Fin 0.7)
                   then false else ls_alive s) = true ->
                  (if eqb (Fin n2) (Fin 0) && (20 <? d)%Z
                      && gtb stress2 (Fin 0.7)
                   then false else ls_alive t) = true).
      { cbn [eqb].
        destruct (Qeq_bool n2 0) eqn:Z2; cbn [andb]; [|
          destruct (_ && _ && _); [discriminate|exact Ha]].
        destruct (20 <? d)%Z; cbn [andb]; [|
          rewrite andb_false_r; exact Ha].
        destruct (gtb stress2 (Fin 0.7)) eqn:S2; [|
          destruct (_ && _ && _); [discriminate|exact Ha]].
        rewrite (stress_le eq_refl).
        apply Qeq_bool_iff in Z2.
        assert (Z1 : Qeq_bool n1 0 = true) by (apply Qeq_bool_iff; lra).
        rewrite Z1. discriminate. }
      split; [|split].
      + exists n1, n2. repeat split; auto.
      + exact A.
      + apply Forall2_app; [exact Hall|].
        constructor; [|constructor]. cbn [day biomass alive].
        split; [reflexivity|]. split; [|exact A].
        destruct (toFixed3_unit_eq n1) as (F1 & _); [lra|].
        destruct (toFixed3_unit_eq n2) as (F2 & _); [lra|].
        rewrite F1, F2. do 2 eexists.
        split; [reflexivity|]. split; [reflexivity|].
        unfold Qdiv. apply Qmult_le_compat_r; [|discriminate].
        rewrite <- Zle_Qle. apply Qfloor_resp_le. lra.
    - split; [|split].
      + exists 0, 0. repeat split; try reflexivity; lra.
      + auto.
      + constructor. }
  exact (proj2 (proj2 H)).
Qed.

End Comparison.

(** X8.  For one crop and one annual rainfall, a higher environmental
    score gives, day by day, at least as much biomass, and a frame that
    is alive under the lower score is alive under the higher one. *)
Theorem better_score_grows_more (climR1 climR2 : Climate.t)
    (soilR1 soilR2 : Soil.t) (reqs : Crop.t) (res1 res2 : SimulationResult)
    (e1 e2 : Q) :
  evaluate climR1 soilR1 reqs = Some res1 ->
  evaluate climR2 soilR2 reqs = Some res2 ->
  Climate.annualRainMm climR1 = Climate.annualRainMm climR2 ->
  envScore (fits res1) = Fin e1 -> envScore (fits res2) = Fin e2 ->
  e1 <= e2 ->
  Forall2 (fun f1 f2 =>
             day f1 = day f2
             /\ (exists x y, biomass f1 = Fin x /\ biomass f2 = Fin y
                             /\ x <= y)
             /\ (alive f1 = true -> alive f2 = true))
          (timeline res1) (timeline res2).
Proof.
  intros H1 H2 Hrain E1 E2 Hle.
  destruct (evaluate_inv _ _ _ _ H1) as (e1' & E1' & He1 & Etl1 & _).
  destruct (evaluate_inv _ _ _ _ H2) as (e2' & E2' & He2 & Etl2 & _).
  assert (e1' = e1) by congruence. assert (e2' = e2) by congruence.
  subst e1' e2'. rewrite Etl1, Etl2, <- Hrain.
  set (rain := Climate.annualRainMm climR1).
  destruct (rates_finite e1 rain reqs)
    as (g1 & dc1 & sh & Hsh & Eg1 & Edc1 & Esh & Hg1 & Hd1 & Hdc1).
  destruct (rates_finite e2 rain reqs)
    as (g2 & dc2 & sh' & _ & Eg2 & Edc2 & Esh' & Hg2 & Hd2 & Hdc2).
  assert (sh' = sh) by congruence. subst sh'.
  assert (Hdc : dc2 <= dc1).
  { destruct (Qlt_le_dec e2 0.4) as [Lo|Hi].
    - rewrite (Hdc2 Lo), (Hdc1 ltac:(lra)). lra.
    - pose proof (decay_low (1 - e2)) as D.
      unfold GROWTH.stressThreshold in D. rewrite D in Edc2 by lra.
      injection Edc2 as <-. exact Hd1. }
  apply (runTimeline_compare g1 dc1 sh g2 dc2 sh Hsh Hsh); auto; try lra.
  cbn [gtb ltb]. intros S. apply Qltb_lt in S. apply Qltb_lt. lra.
Qed.

Lemma better_score_grows_more_witness :
  evaluate arctic acid wheat = Some barren
  /\ evaluate dry loam wheat = Some parched
  /\ envScore (fits barren) = Fin barren_env
  /\ envScore (fits parched) = Fin parched_env
  /\ barren_env <= parched_env
  /\ Forall2 (fun f1 f2 =>
                day f1 = day f2
                /\ (exists x y, biomass f1 = Fin x /\ biomass f2 = Fin y
                                /\ x <= y)
                /\ (alive f1 = true -> alive f2 = true))
             (timeline barren) (timeline parched).
Proof.
  assert (E1 : evaluate arctic acid wheat = Some barren)
    by (vm_compute; reflexivity).
  assert (E2 : evaluate dry loam wheat = Some parched)
    by (vm_compute; reflexivity).
  assert (V1 : envScore (fits barren) = Fin barren_env) by reflexivity.
  assert (V2 : envScore (fits parched) = Fin parched_env) by reflexivity.
  assert (L : barren_env <= parched_env) by (vm_compute; discriminate).
  split; [exact E1|]. split; [exact E2|]. split; [exact V1|].
  split; [exact V2|]. split; [exact L|].
  exact (better_score_grows_more arctic dry acid loam wheat barren parched
           barren_env parched_env E1 E2 eq_refl V1 V2 L).
Defined.

(* ================================================================== *)
(** ** More on the handler and its cache *)

Lemma apiSimulate_valid (cache : Cache) (w : World) (req : Request) :
  negb (isFiniteOpt (lat req)) || negb (isFiniteOpt (lon req))
  || negb (nonEmpty (crop req)) = false ->
  apiSimulate cache w req
  = match getCropDataFromGemini cache w (nullish (crop req) EmptyString) with
    | (None, cache') =>
        (Error 404
           ("Could not find agronomic data for " ++ dq
            ++ nullish (crop req) EmptyString ++ dq
            ++ ". Please check the spelling or try another crop."),
         cache')
    | (Some reqs, cache') =>
        match climateAnswer w with
        | inl e => (Error 500 (messageOf e), cache')
        | inr climR =>
            match evaluate climR (soilAnswer w) reqs with
            | None => (Error 500 "TypeError", cache')
            | Some r => (Success r, cache')
            end
        end
    end.
Proof. intros G. unfold apiSimulate. now rewrite G. Qed.

Lemma evaluate_complete (climR : Climate.t) (soilR : Soil.t) (d : Crop.t) :
  complete d -> exists r, evaluate climR soilR d = Some r.
Proof.
  intros (_ & _ & [tex E]). exact (evaluate_total climR soilR d tex E).
Qed.

Lemma apiSimulate_fresh (cache : Cache) (w : World) (req : Request)
    (name : string) (parsed : Crop.t) (climR : Climate.t)
    (r : SimulationResult) :
  isFiniteOpt (lat req) = true -> isFiniteOpt (lon req) = true ->
  crop req = Some name -> name <> EmptyString ->
  cache !! name = None -> GEMINI_API_KEY w = true ->
  geminiTry w = inr parsed -> climateAnswer w = inr climR ->
  evaluate climR (soilAnswer w) parsed = Some r ->
  apiSimulate cache w req = (Success r, <[name := parsed]> cache).
Proof.
  intros Hlat Hlon Hcrop Hname Hmiss Hkey T Hclim Er.
  rewrite apiSimulate_valid.
  - rewrite Hcrop. cbn [nullish]. unfold getCropDataFromGemini.
    rewrite Hmiss, Hkey, T. cbn [negb]. now rewrite Hclim, Er.
  - rewrite Hlat, Hlon, Hcrop. destruct name; [congruence|reflexivity].
Qed.

(** X9.  A request that was answered with a result is answered with the
    same result when repeated, from the cache alone: whether the API key
    is set and what the model would answer no longer matter, and the
    cache stays as it is. *)
Theorem repeated_request_served_from_cache (cache cache' : Cache)
    (w w' : World) (req : Request) (r : SimulationResult) :
  apiSimulate cache w req = (Success r, cache') ->
  climateAnswer w' = climateAnswer w -> soilAnswer w' = soilAnswer w ->
  apiSimulate cache' w' req = (Success r, cache').
Proof.
  intros H Hc Hs.
  destruct (negb (isFiniteOpt (lat req)) || negb (isFiniteOpt (lon req))
            || negb (nonEmpty (crop req))) eqn:G.
  { unfold apiSimulate in H. rewrite G in H. discriminate. }
  rewrite (apiSimulate_valid _ _ _ G) in H.
  rewrite (apiSimulate_valid cache' w' req G).
  set (name := nullish (crop req) EmptyString) in *.
  assert (D : exists d, getCropDataFromGemini cache w name = (Some d, cache')
                        /\ cache' !! name = Some d).
  { unfold getCropDataFromGemini in *.
    destruct (cache !! name) as [d|] eqn:E; cbv beta iota in H.
    - destruct (climateAnswer w); [discriminate H|].
      destruct (evaluate _ _ d); [|discriminate H].
      injection H as _ <-. exists d. split; [reflexivity|exact E].
    - destruct (negb (GEMINI_API_KEY w)); cbv beta iota in H;
        [discriminate H|].
      destruct (geminiTry w) as [?|parsed]; cbv beta iota in H;
        [discriminate H|].
      destruct (climateAnswer w); [discriminate H|].
      destruct (evaluate _ _ parsed); [|discriminate H].
      injection H as _ <-. exists parsed. split; [reflexivity|].
      apply lookup_insert_eq. }
  destruct D as (d & Ed & Hit). rewrite Ed in H.
  unfold getCropDataFromGemini. rewrite Hit, Hc, Hs.
  destruct (climateAnswer w); [discriminate H|].
  destruct (evaluate _ _ d); [|discriminate H].
  injection H as ->. reflexivity.
Qed.

Lemma repeated_request_served_from_cache_witness :
  exists r cache',
    apiSimulate ∅ (answering wheat unsurveyed) askWheat = (Success r, cache')
    /\ apiSimulate cache'
         (mkWorld false (inl "unreachable") (inr temperate) unsurveyed)
         askWheat
       = (Success r, cache').
Proof.
  destruct (evaluate_total temperate unsurveyed wheat (mkTexture 45 70)
              eq_refl) as (r & Er).
  exists r, (<["wheat" := wheat]> ∅).
  assert (H : apiSimulate ∅ (answering wheat unsurveyed) askWheat
              = (Success r, <["wheat" := wheat]> ∅)).
  { apply (apiSimulate_fresh ∅ (answering wheat unsurveyed) askWheat
             "wheat" wheat temperate r); try reflexivity;
      [discriminate|exact Er]. }
  split; [exact H|].
  exact (repeated_request_served_from_cache ∅ _ _ _ askWheat r H
           eq_refl eq_refl).
Defined.

(** X10.  The cache only grows, keeps only complete crop data, and is
    left as it was by a request answered 400 or 404: a failed lookup is
    not remembered. *)
Theorem cache_evolution (cache cache' : Cache) (w : World) (req : Request)
    (resp : Response) :
  cacheOk cache ->
  apiSimulate cache w req = (resp, cache') ->
  cacheOk cache'
  /\ cache ⊆ cache'
  /\ (forall msg, resp = Error 400 msg \/ resp = Error 404 msg ->
      cache' = cache).
Proof.
  intros Ok H.
  destruct (negb (isFiniteOpt (lat req)) || negb (isFiniteOpt (lon req))
            || negb (nonEmpty (crop req))) eqn:G.
  { unfold apiSimulate in H. rewrite G in H. injection H as <- <-.
    split; [exact Ok|]. split; [reflexivity|]. reflexivity. }
  rewrite (apiSimulate_valid _ _ _ G) in H.
  set (name := nullish (crop req) EmptyString) in *.
  destruct (getCropDataFromGemini cache w name) as [[d|] c] eqn:E.
  - destruct (getCropDataFromGemini_complete _ _ _ _ _ Ok E) as (Cd & Ok').
    assert (Sub : cache ⊆ c).
    { unfold getCropDataFromGemini in E.
      destruct (cache !! name) eqn:L.
      - injection E as _ <-. reflexivity.
      - destruct (negb (GEMINI_API_KEY w)); [discriminate|].
        destruct (geminiTry w); [discriminate|].
        injection E as _ <-. now apply insert_subseteq. }
    assert (R : cache' = c /\ forall msg, resp <> Error 400 msg
                                          /\ resp <> Error 404 msg).
    { destruct (climateAnswer w).
      - injection H as <- <-. split; [reflexivity|].
        intros msg. split; discriminate.
      - destruct (evaluate _ _ d); injection H as <- <-;
          (split; [reflexivity|]); intros msg; split; discriminate. }
    destruct R as (-> & R). split; [exact Ok'|]. split; [exact Sub|].
    intros msg [F|F]; destruct (R msg); contradiction.
  - assert (c = cache).
    { unfold getCropDataFromGemini in E.
      destruct (cache !! name); [discriminate|].
      destruct (negb (GEMINI_API_KEY w)); [now injection E|].
      destruct (geminiTry w); [now injection E|discriminate]. }
    subst c. injection H as <- <-.
    split; [exact Ok|]. split; reflexivity.
Qed.

Lemma cache_evolution_witness :
  cacheOk ∅
  /\ exists resp cache',
       apiSimulate ∅ (answering textureless loam) askWheat = (resp, cache')
       /\ cacheOk cache' /\ ∅ ⊆ cache'
       /\ (forall msg, resp = Error 400 msg \/ resp = Error 404 msg ->
           cache' = ∅).
Proof.
  assert (Ok : cacheOk ∅) by apply map_Forall_empty.
  split; [exact Ok|].
  do 2 eexists. split; [reflexivity|].
  exact (cache_evolution ∅ _ (answering textureless loam) askWheat _ Ok
           eq_refl).
Defined.

(** X11.  With a cache of complete data, a well-formed request is
    answered 404 exactly when the crop is not cached and the provider
    fails (no API key, an exception, or incomplete crop data); and when
    the climate fetch returns, the answer is never 500. *)
Theorem handler_answers (cache cache' : Cache) (w : World) (req : Request)
    (name : string) (resp : Response) :
  cacheOk cache ->
  isFiniteOpt (lat req) = true -> isFiniteOpt (lon req) = true ->
  crop req = Some name -> name <> EmptyString ->
  apiSimulate cache w req = (resp, cache') ->
  ((exists msg, resp = Error 404 msg)
   <-> cache !! name = None
       /\ (GEMINI_API_KEY w = false
           \/ (exists e, geminiAnswer w = inl e)
           \/ (exists d, geminiAnswer w = inr d /\ ~ complete d)))
  /\ (forall climR, climateAnswer w = inr climR ->
      forall msg, resp <> Error 500 msg).
Proof.
  intros Ok Hlat Hlon Hcrop Hname H.
  assert (G : negb (isFiniteOpt (lat req)) || negb (isFiniteOpt (lon req))
              || negb (nonEmpty (crop req)) = false).
  { rewrite Hlat, Hlon, Hcrop. destruct name; [congruence|reflexivity]. }
  rewrite (apiSimulate_valid _ _ _ G) in H. rewrite Hcrop in H.
  cbn [nullish] in H.
  destruct (getCropDataFromGemini cache w name) as [[d|] c] eqn:E.
  - destruct (getCropDataFromGemini_complete _ _ _ _ _ Ok E) as (Cd & _).
    assert (Served : ~ (cache !! name = None
              /\ (GEMINI_API_KEY w = false
                  \/ (exists e, geminiAnswer w = inl e)
                  \/ (exists d, geminiAnswer w = inr d /\ ~ complete d)))).
    { unfold getCropDataFromGemini in E.
      intros (Miss & Fail). rewrite Miss in E.
      destruct (GEMINI_API_KEY w); cbn [negb] in E; [|discriminate].
      destruct (geminiTry w) as [?|parsed] eqn:T; [discriminate|].
      apply geminiTry_inr in T as (A & C).
      destruct Fail as [F|[(e & F)|(d' & F & N)]]; [congruence..|].
      rewrite A in F. apply N. now injection F as <-. }
    split.
    + split; [|intros F; contradiction].
      intros (msg & ->).
      destruct (climateAnswer w); [discriminate|].
      destruct (evaluate _ _ d); discriminate.
    + intros climR Hc msg. rewrite Hc in H.
      destruct (evaluate_complete climR (soilAnswer w) d Cd) as (r & Er).
      rewrite Er in H. injection H as <- _. discriminate.
  - injection H as <- <-. split.
    + split; [intros _|intros _; eexists; reflexivity].
      unfold getCropDataFromGemini in E.
      destruct (cache !! name); [discriminate|]. split; [reflexivity|].
      destruct (GEMINI_API_KEY w); cbn [negb] in E; [|now left].
      right. unfold geminiTry in E.
      destruct (geminiAnswer w) as [e|d]; [left; eexists; reflexivity|].
      right. exists d. split; [reflexivity|].
      intros ([t Et] & [p Ep] & [x Ex]). rewrite Et, Ep, Ex in E.
      discriminate.
    + intros climR _ msg. discriminate.
Qed.

Lemma handler_answers_witness :
  exists resp cache',
    apiSimulate ∅ (answering textureless loam) askWheat = (resp, cache')
    /\ (exists msg, resp = Error 404 msg)
    /\ forall msg, resp <> Error 500 msg.
Proof.
  assert (Ok : cacheOk ∅) by apply map_Forall_empty.
  assert (N : "wheat" <> EmptyString) by discriminate.
  do 2 eexists. split; [reflexivity|].
  destruct (handler_answers ∅ _ (answering textureless loam) askWheat
              "wheat" _ Ok eq_refl eq_refl eq_refl N eq_refl) as (A & B).
  split.
  - apply A. split; [reflexivity|]. right. right. exists textureless.
    split; [reflexivity|]. intros (_ & _ & [x Hx]). discriminate Hx.
  - exact (B temperate eq_refl).
Defined.

(* ================================================================== *)
(** ** The climate collaborator *)







(** X13.  Where the rainfall climatology is missing, the annual rainfall
    is 0 and not unknown: the rainfall fit against a range with a
    positive minimum is 0 (not the neutral 0.5 that a missing
    temperature gets), and the rainfall shock applies whenever the
    crop's minimum is positive. *)
Theorem missing_rain_is_zero (status : Z) (param : option Power.parameter)
    (c : Climate.t) :
  fetchClimate (Power.Response true status param) = inr c ->
  Climate.rainMmPerDay c = NaN ->
  Climate.annualRainMm c = Fin 0
  /\ (forall r, 0 < min r ->
        rangeFit (Climate.annualRainMm c) (Some r) = Fin 0)
  /\ (forall reqs, 0 < minRain reqs ->
        shock (Climate.annualRainMm c) reqs = Fin 0.003)
  /\ (Climate.tempC c = NaN ->
      forall r, rangeFit (Climate.tempC c) r = Fin 0.5).
Proof.
  cbn [fetchClimate negb]. intros [= <-]. cbn [Climate.rainMmPerDay].
  intros E. cbn [Climate.annualRainMm Climate.tempC]. rewrite E.
  cbn [orNumber mul Math_round].
  change (Fin (inject_Z (round_half_up (0 * 365)))) with (Fin 0).
  split; [reflexivity|]. split; [|split].
  - intros r Hr.
    destruct (rangeFit_cases 0 r) as [[C F]|[[C F]|[[C F]|[C F]]]];
      try exact F; lra.
  - intros reqs Hm. unfold shock. cbn [ltb].
    assert (L : Qltb 0 (minRain reqs) = true) by (apply Qltb_lt; exact Hm).
    now rewrite L.
  - intros -> r. unfold rangeFit. cbn [isFinite]. reflexivity.
Qed.

Lemma missing_rain_is_zero_witness :
  exists c,
    fetchClimate (Power.Response true 200 None) = inr c
    /\ Climate.rainMmPerDay c = NaN
    /\ Climate.annualRainMm c = Fin 0
    /\ rangeFit (Climate.annualRainMm c) (Some (mkRange 300 1200 450 900))
       = Fin 0.
Proof.
  eexists. split; [reflexivity|]. split; [reflexivity|].
  destruct (missing_rain_is_zero 200 None _ eq_refl eq_refl)
    as (A & R & _).
  split; [exact A|]. apply R. cbn. lra.
Defined.



(** X15.  When the climate request is answered with a status that is not
    ok, a well-formed request for a crop that is not cached but that the
    model describes completely is answered 500 with that status in the
    message, and the crop data is cached all the same. *)
Theorem climate_failure_is_500 (cache : Cache) (w : World) (req : Request)
    (name : string) (parsed : Crop.t) (status : Z)
    (param : option Power.parameter) :
  isFiniteOpt (lat req) = true -> isFiniteOpt (lon req) = true ->
  crop req = Some name -> name <> EmptyString ->
  cache !! name = None -> GEMINI_API_KEY w = true ->
  geminiAnswer w = inr parsed -> complete parsed ->
  climateAnswer w = fetchClimate (Power.Response false status param) ->
  apiSimulate cache w req
  = (Error 500 ("POWER fetch failed (" ++ pretty status ++ ")")%string,
     <[name := parsed]> cache).
Proof.
  intros Hlat Hlon Hcrop Hname Hmiss Hkey Hans ([t Ht] & [p Hp] & [x Hx]) Hc.
  rewrite apiSimulate_valid.
  - rewrite Hcrop. cbn [nullish]. unfold getCropDataFromGemini, geminiTry.
    rewrite Hmiss, Hkey, Hans, Ht, Hp, Hx. cbn [negb truthy orb].
    rewrite Hc. reflexivity.
  - rewrite Hlat, Hlon, Hcrop. destruct name; [congruence|reflexivity].
Qed.

Lemma climate_failure_is_500_witness :
  apiSimulate ∅
    (mkWorld true (inr wheat)
       (fetchClimate (Power.Response false 503 None)) loam)
    askWheat
  = (Error 500 "POWER fetch failed (503)", <["wheat" := wheat]> ∅).
Proof.
  assert (N : "wheat" <> EmptyString) by discriminate.
  assert (C : complete wheat) by (repeat split; eexists; reflexivity).
  exact (climate_failure_is_500 ∅
           (mkWorld true (inr wheat)
              (fetchClimate (Power.Response false 503 None)) loam)
           askWheat "wheat" wheat 503 None
           eq_refl eq_refl eq_refl N eq_refl eq_refl eq_refl C eq_refl).
Defined.

(* ================================================================== *)
(** ** The soil collaborator *)

Lemma retryDelay_bounds (attempt : Z) :
  (1 <= attempt)%Z ->
  (0 <= retryDelay attempt <= 10000)%Z
  /\ (retryDelay attempt <= 1000 * 2 ^ (attempt - 1))%Z.
Proof.
  intros H. unfold retryDelay.
  assert (0 < 2 ^ (attempt - 1))%Z by (apply Z.pow_pos_nonneg; lia).
  lia.
Qed.

Lemma pow2_step (attempt : Z) :
  (1 <= attempt)%Z -> (2 ^ (attempt + 1 - 1) = 2 * 2 ^ (attempt - 1))%Z.
Proof.
  intros H. replace (attempt + 1 - 1)%Z with (Z.succ (attempt - 1)) by lia.
  apply Z.pow_succ_r. lia.
Qed.

Section SoilLoop.

Variable maxRetries : Z.
Variable reply : Z -> SoilGrids.reply.

Lemma soilRunOk_stop (attempt w : Z) (res : SoilGrids.result) :
  (1 <= attempt <= maxRetries)%Z ->
  (SoilGrids.error res <> None -> SoilGrids.values res = defaultSoil) ->
  (SoilGrids.error res = None ->
   exists props,
     reply attempt = SoilGrids.Data (Some props)
     /\ SoilGrids.values res = soilFrom props
     /\ hasValidData (soilFrom props) = true) ->
  soilRunOk maxRetries reply attempt w (mkSoilRun (Some res) attempt w).
Proof.
  intros Hr He Hd. unfold soilRunOk. cbn [returned attempts waited].
  split; [exists res; auto|]. repeat split; try lia.
Qed.

Lemma soilRunOk_again (attempt w : Z) (run : SoilRun) :
  (1 <= attempt < maxRetries)%Z ->
  retried maxRetries reply attempt ->
  soilRunOk maxRetries reply (attempt + 1) (w + retryDelay attempt) run ->
  soilRunOk maxRetries reply attempt w run.
Proof.
  intros Hr Hret (Hres & Hatt & Hw & H10 & Hpow & Hk).
  destruct (retryDelay_bounds attempt) as (D1 & D2); [lia|].
  rewrite pow2_step in Hpow by lia.
  unfold soilRunOk. split; [exact Hres|]. repeat split; try lia.
  intros k Hk'. destruct (Z.eq_dec k attempt) as [->|N]; [exact Hret|].
  apply Hk. lia.
Qed.

Lemma soilLoop_ok (fuel : nat) :
  forall attempt w,
    (1 <= attempt <= maxRetries)%Z ->
    fuel = Z.to_nat (maxRetries - attempt + 1) ->
    soilRunOk maxRetries reply attempt w
      (soilLoop fuel attempt maxRetries reply w).
Proof.
  induction fuel as [|fuel IH]; intros attempt w Hr Hf; [lia|].
  cbn [soilLoop].
  assert (Hle : (attempt <=? maxRetries)%Z = true) by (apply Z.leb_le; lia).
  rewrite Hle. cbn [negb]. cbv zeta.
  assert (Again : (attempt < maxRetries)%Z ->
                  retried maxRetries reply attempt ->
                  soilRunOk maxRetries reply attempt w
                    (soilLoop fuel (attempt + 1) maxRetries reply
                       (w + retryDelay attempt))).
  { intros Hlt Hret. apply soilRunOk_again; [lia|exact Hret|].
    apply IH; lia. }
  assert (Caught : (retried maxRetries reply attempt
                    <-> (attempt < maxRetries)%Z) ->
                   soilRunOk maxRetries reply attempt w
                     (if (attempt =? maxRetries)%Z
                      then mkSoilRun
                             (Some (SoilGrids.mk defaultSoil
                                (Some ("API unavailable after "
                                       ++ pretty maxRetries
                                       ++ " attempts - using defaults")%string)))
                             attempt w
                      else soilLoop fuel (attempt + 1) maxRetries reply
                             (w + retryDelay attempt))).
  { intros Hret. destruct (Z.eqb_spec attempt maxRetries) as [E|E].
    - apply soilRunOk_stop; [exact Hr|reflexivity|discriminate].
    - apply Again; [lia|]. apply Hret. lia. }
  unfold retried in Again, Caught.
  destruct (reply attempt) as [|st|[props|]] eqn:R.
  - apply Caught. reflexivity.
  - destruct (shouldRetry st attempt maxRetries) eqn:S.
    + apply Again; [|reflexivity].
      unfold shouldRetry in S. apply andb_true_iff in S as [_ S].
      now apply Z.ltb_lt in S.
    + apply soilRunOk_stop; [exact Hr|reflexivity|discriminate].
  - destruct (hasValidData (soilFrom props)) eqn:V; cbn [negb].
    + apply soilRunOk_stop; [exact Hr|cbn; congruence|].
      intros _. exists props. cbn [SoilGrids.values]. auto.
    + apply Caught. intuition.
  - apply Caught. reflexivity.
Qed.

(** Requests that fail and are retried are skipped over. *)
Lemma soilLoop_skip (fuel : nat) :
  forall attempt w k,
    (1 <= attempt <= k)%Z -> (k <= maxRetries)%Z ->
    fuel = Z.to_nat (maxRetries - attempt + 1) ->
    (forall j, (attempt <= j < k)%Z -> retried maxRetries reply j) ->
    exists w',
      soilLoop fuel attempt maxRetries reply w
      = soilLoop (Z.to_nat (maxRetries - k + 1)) k maxRetries reply w'.
Proof.
  induction fuel as [|fuel IH]; intros attempt w k Hr Hk Hf Hret; [lia|].
  destruct (Z.eq_dec attempt k) as [->|N].
  { exists w. now rewrite Hf. }
  assert (Hle : (attempt <=? maxRetries)%Z = true) by (apply Z.leb_le; lia).
  assert (Hne : (attempt =? maxRetries)%Z = false) by (apply Z.eqb_neq; lia).
  destruct (IH (attempt + 1)%Z (w + retryDelay attempt)%Z k) as (w' & E);
    try lia.
  { intros j Hj. apply Hret. lia. }
  exists w'. rewrite <- E. cbn [soilLoop]. rewrite Hle, Hne. cbn [negb].
  cbv zeta. specialize (Hret attempt ltac:(lia)). unfold retried in Hret.
  destruct (reply attempt) as [|st|[props|]]; try reflexivity.
  - now rewrite Hret.
  - destruct Hret as [V _]. now rewrite V.
Qed.

End SoilLoop.

(** X16.  With at least one attempt allowed, [fetchSoil] returns an
    object and never throws; it makes no request exactly when the
    coordinates are out of range, at most [maxRetries] requests
    otherwise, and with the default of five attempts it waits at most
    15 seconds between them in all. *)
Theorem fetchSoil_returns (lat lon : number) (maxRetries : Z)
    (reply : Z -> SoilGrids.reply) :
  (1 <= maxRetries)%Z ->
  (exists res, returned (fetchSoil lat lon maxRetries reply) = Some res)
  /\ (0 <= attempts (fetchSoil lat lon maxRetries reply) <= maxRetries)%Z
  /\ (attempts (fetchSoil lat lon maxRetries reply) = 0%Z
      <-> ltb lat (Fin (-90)) || gtb lat (Fin 90)
          || ltb lon (Fin (-180)) || gtb lon (Fin 180) = true)
  /\ (0 <= waited (fetchSoil lat lon maxRetries reply)
      <= 10000 * attempts (fetchSoil lat lon maxRetries reply))%Z
  /\ (maxRetries <= 5 ->
      waited (fetchSoil lat lon maxRetries reply) <= 15000)%Z.
Proof.
  intros H. unfold fetchSoil.
  destruct (ltb lat (Fin (-90)) || gtb lat (Fin 90)
            || ltb lon (Fin (-180)) || gtb lon (Fin 180)).
  - cbn [returned attempts waited]. split; [eexists; reflexivity|].
    split; [lia|]. split; [tauto|]. split; lia.
  - destruct (soilLoop_ok maxRetries reply (Z.to_nat maxRetries) 1 0)
      as ((res & Eres & _) & Hatt & Hw & H10 & Hpow & _); [lia..|].
    set (run := soilLoop (Z.to_nat maxRetries) 1 maxRetries reply 0) in *.
    split; [exists res; exact Eres|]. split; [lia|].
    split; [split; [lia|discriminate]|]. split; [lia|].
    intros H5.
    assert (2 ^ (attempts run - 1) <= 2 ^ 4)%Z
      by (apply Z.pow_le_mono_r; lia).
    change (2 ^ (1 - 1))%Z with 1%Z in Hpow. change (2 ^ 4)%Z with 16%Z in *.
    lia.
Qed.

Lemma fetchSoil_returns_witness :
  (exists res,
      returned (fetchSoil (Fin 52) (Fin 13) 5 (fun _ => SoilGrids.Throws))
      = Some res)
  /\ (waited (fetchSoil (Fin 52) (Fin 13) 5 (fun _ => SoilGrids.Throws))
      <= 15000)%Z.
Proof.
  assert (H : (1 <= 5)%Z) by lia.
  destruct (fetchSoil_returns (Fin 52) (Fin 13) 5
              (fun _ => SoilGrids.Throws) H) as (R & _ & _ & _ & W).
  split; [exact R|]. apply W. lia.
Defined.

(** X17.  An object returned with an [error] holds exactly the default
    soil values; one returned without holds the values of the last
    request's layers, at least one of which is known. *)
Theorem fetchSoil_fallback (lat lon : number) (maxRetries : Z)
    (reply : Z -> SoilGrids.reply) (res : SoilGrids.result) :
  returned (fetchSoil lat lon maxRetries reply) = Some res ->
  (SoilGrids.error res <> None -> SoilGrids.values res = defaultSoil)
  /\ (SoilGrids.error res = None ->
      exists props,
        reply (attempts (fetchSoil lat lon maxRetries reply))
        = SoilGrids.Data (Some props)
        /\ SoilGrids.values res = soilFrom props
        /\ hasValidData (SoilGrids.values res) = true).
Proof.
  unfold fetchSoil.
  destruct (ltb lat (Fin (-90)) || gtb lat (Fin 90)
            || ltb lon (Fin (-180)) || gtb lon (Fin 180)).
  - cbn [returned]. intros [= <-]. split; [reflexivity|discriminate].
  - destruct (Z_lt_le_dec maxRetries 1) as [Lt|Ge].
    + replace (Z.to_nat maxRetries) with 0%nat by lia. discriminate.
    + destruct (soilLoop_ok maxRetries reply (Z.to_nat maxRetries) 1 0)
        as ((res' & Eres & Herr & Hdata) & _); [lia..|].
      intros E. rewrite Eres in E. injection E as ->.
      split; [exact Herr|]. intros N.
      destruct (Hdata N) as (props & R & V & Hv).
      exists props. rewrite V. auto.
Qed.

Lemma fetchSoil_fallback_witness :
  exists res,
    returned (fetchSoil (Fin 52) (Fin 13) 5 (fun _ => SoilGrids.Status 404))
    = Some res
    /\ SoilGrids.error res <> None
    /\ SoilGrids.values res = defaultSoil.
Proof.
  eexists. split; [reflexivity|]. split; [discriminate|].
  apply (fetchSoil_fallback (Fin 52) (Fin 13) 5
           (fun _ => SoilGrids.Status 404) _ eq_refl).
  discriminate.
Defined.

(** X18.  After requests that failed and were retried, the first reply
    with a known value is what [fetchSoil] returns, and the first status
    that is not retried ends the loop with the default values. *)
Theorem first_usable_reply_wins (lat lon : number) (maxRetries : Z)
    (reply : Z -> SoilGrids.reply) (k : Z) :
  ltb lat (Fin (-90)) || gtb lat (Fin 90)
  || ltb lon (Fin (-180)) || gtb lon (Fin 180) = false ->
  (1 <= k <= maxRetries)%Z ->
  (forall j, (1 <= j < k)%Z -> retried maxRetries reply j) ->
  (forall props,
      reply k = SoilGrids.Data (Some props) ->
      hasValidData (soilFrom props) = true ->
      returned (fetchSoil lat lon maxRetries reply)
      = Some (SoilGrids.mk (soilFrom props) None)
      /\ attempts (fetchSoil lat lon maxRetries reply) = k)
  /\ (forall st,
        reply k = SoilGrids.Status st ->
        shouldRetry st k maxRetries = false ->
        returned (fetchSoil lat lon maxRetries reply)
        = Some (SoilGrids.mk defaultSoil
                  (Some ("API error " ++ pretty st
                         ++ " - using defaults")%string))
        /\ attempts (fetchSoil lat lon maxRetries reply) = k).
Proof.
  intros Hc Hk Hret. unfold fetchSoil. rewrite Hc.
  destruct (soilLoop_skip maxRetries reply (Z.to_nat maxRetries) 1 0 k)
    as (w' & ->); try lia; [exact Hret|].
  destruct (Z.to_nat (maxRetries - k + 1)) as [|fuel] eqn:F; [lia|].
  assert (Hle : (k <=? maxRetries)%Z = true) by (apply Z.leb_le; lia).
  cbn [soilLoop]. rewrite Hle. cbn [negb]. cbv zeta. split.
  - intros props R V. rewrite R, V. cbn [negb returned attempts]. auto.
  - intros st R S. rewrite R, S. cbn [returned attempts]. auto.
Qed.

Lemma first_usable_reply_wins_witness :
  returned
    (fetchSoil (Fin 52) (Fin 13) 5
       (fun k => if (k <? 3)%Z then SoilGrids.Status 503
                 else SoilGrids.Data
                        (Some [SoilGrids.mkLayer "clay" (Some (Fin 230))])))
  = Some (SoilGrids.mk
            (soilFrom [SoilGrids.mkLayer "clay" (Some (Fin 230))]) None)
  /\ attempts
       (fetchSoil (Fin 52) (Fin 13) 5
          (fun k => if (k <? 3)%Z then SoilGrids.Status 503
                    else SoilGrids.Data
                           (Some [SoilGrids.mkLayer "clay" (Some (Fin 230))])))
     = 3%Z.
Proof.
  apply (first_usable_reply_wins (Fin 52) (Fin 13) 5 _ 3); try reflexivity.
  - lia.
  - intros j Hj. unfold retried.
    assert (L : (j <? 3)%Z = true) by (apply Z.ltb_lt; lia). rewrite L.
    assert (j = 1 \/ j = 2)%Z as [-> | ->] by lia; reflexivity.
Defined.

(** X19.  The earlier [fetchSoil] never throws: a failed request, or an
    answer without layers, gives the object of five nulls.  With it the
    computation returns whatever the crop data is, the soil fit is 0.5,
    and no soil limit is listed. *)
Theorem unknown_soil_is_neutral (reply : SoilGrids.reply)
    (climR : Climate.t) (reqs : Crop.t) :
  reply = SoilGrids.Throws \/ (exists st, reply = SoilGrids.Status st)
  \/ reply = SoilGrids.Data None \/ reply = SoilGrids.Data (Some []) ->
  fetchSoilLegacy reply = Soil.mk None None None None None
  /\ exists res,
       evaluate climR (fetchSoilLegacy reply) reqs = Some res
       /\ (exists q, soil (fits res) = Fin q /\ q == 0.5)
       /\ ~ In "Soil pH unsuitable" (limits res)
       /\ ~ In "Soil too clayey (poor drainage)" (limits res)
       /\ ~ In "Soil too sandy (low water retention)" (limits res).
Proof.
  intros H.
  assert (E : fetchSoilLegacy reply = Soil.mk None None None None None)
    by (destruct H as [-> |[[st ->]|[-> | ->]]]; reflexivity).
  split; [exact E|]. rewrite E.
  assert (T : exists res,
             evaluate climR (Soil.mk None None None None None) reqs
             = Some res).
  { unfold evaluate, soilQuality, texturePenalty, exceeds.
    cbn [Soil.ph Soil.clay Soil.sand Soil.soc nullish isFinite].
    match goal with
    | |- context [statusOf ?a ?tl ?sc] =>
        destruct (statusOf_total a tl sc (runTimeline_length _ _ _ _))
          as (st & ->)
    end.
    eexists. reflexivity. }
  destruct T as (res & Er). exists res. split; [exact Er|].
  destruct (evaluate_parts _ _ _ _ Er) as (sq & c & s & Esq & Ec & Es & Ef & _ & El).
  cbn [Soil.ph Soil.clay Soil.sand Soil.soc nullish] in *.
  unfold exceeds in Ec, Es. cbn [isFinite] in Ec, Es.
  injection Ec as <-. injection Es as <-.
  unfold soilQuality, texturePenalty, exceeds in Esq.
  cbn [isFinite] in Esq. injection Esq as <-.
  split.
  - rewrite Ef. cbn [soil]. eexists. split; [vm_compute; reflexivity|].
    reflexivity.
  - rewrite El.
    change (ltb (rangeFit NaN (Crop.soilPh reqs)) (Fin 0.5)) with false.
    unfold pushIf.
    destruct (ltb (solar _) _), (ltb (rainfall _) _), (ltb (temperature _) _);
      cbn [app In]; repeat split; intros I;
      repeat (destruct I as [I|I]; [discriminate I|]); exact I.
Qed.

Lemma unknown_soil_is_neutral_witness :
  fetchSoilLegacy (SoilGrids.Status 502) = Soil.mk None None None None None
  /\ exists res,
       evaluate temperate (fetchSoilLegacy (SoilGrids.Status 502)) wheat
       = Some res
       /\ (exists q, soil (fits res) = Fin q /\ q == 0.5).
Proof.
  destruct (unknown_soil_is_neutral (SoilGrids.Status 502) temperate wheat)
    as (E & res & Er & Q & _).
  - right. left. eexists. reflexivity.
  - split; [exact E|]. exists res. split; [exact Er|exact Q].
Defined.

(* ================================================================== *)
(** ** The client's plant drawing *)

Lemma lines_app (a b : list Cmd) : lines (a ++ b) = (lines a + lines b)%nat.
Proof. unfold lines. now rewrite List.filter_app, List.length_app. Qed.

Lemma stackAfter_app (a b : list Cmd) (k : nat) :
  stackAfter (a ++ b) k
  = match stackAfter a k with
    | Some k' => stackAfter b k'
    | None => None
    end.
Proof.
  revert k. induction a as [|c a IH]; intros k; [reflexivity|].
  destruct c; cbn [app stackAfter]; try apply IH.
  destruct k; [reflexivity|apply IH].
Qed.

(** From depth [d] the recursion ends after [m + 1 - d] nested calls,
    has drawn a full binary tree of lines, and leaves the matrix stack
    as it found it. *)
Lemma branch_ok (m : Z) (mq : Q) (angle : number) (n : nat) :
  mq == inject_Z m ->
  forall fuel len dq d,
    dq == inject_Z d ->
    n = Z.to_nat (m + 1 - d) -> (1 <= d <= m + 1)%Z -> (n < fuel)%nat ->
    exists cmds,
      branch fuel (Fin mq) angle len (Fin dq) = Some cmds
      /\ lines cmds = (2 ^ n - 1)%nat
      /\ forall k, stackAfter cmds k = Some k.
Proof.
  intros Hm. induction n as [|n IH]; intros fuel len dq d Hd Hn Hr Hf;
    (destruct fuel as [|fuel]; [lia|]); cbn [branch gtb ltb].
  - assert (d = m + 1)%Z by lia. subst d. rewrite inject_Z_plus in Hd.
    change (inject_Z 1) with 1 in Hd.
    assert (G : Qltb mq dq = true) by (apply Qltb_lt; lra).
    rewrite G. exists []. split; [reflexivity|]. split; reflexivity.
  - assert (d <= m)%Z by lia.
    assert (Dq : dq <= mq) by (rewrite Hd, Hm, <- Zle_Qle; lia).
    assert (G : Qltb mq dq = false) by (apply Qltb_ge; exact Dq).
    rewrite G. cbn [add].
    destruct (IH fuel (mul len (Fin 0.75)) (dq + 1) (d + 1)%Z)
      as (sub & E & L & S); try lia.
    { rewrite inject_Z_plus. change (inject_Z 1) with 1. lra. }
    rewrite E. eexists. split; [reflexivity|]. split.
    + rewrite !lines_app, L. cbn [lines List.filter length Nat.pow].
      assert (1 <= 2 ^ n)%nat by (apply Nat.neq_0_lt_0, Nat.pow_nonzero; lia).
      lia.
    + intros k. cbn [app stackAfter].
      rewrite stackAfter_app, S. cbn [app stackAfter].
      rewrite stackAfter_app, S. reflexivity.
Qed.

(** X20.  For every frame of an answer the client's drawing ends within
    eight nested calls of [branch]: with [m] the whole part of six times
    the biomass, plus one (1 to 7), it draws [2^m - 1] lines, at most
    127, and every [push] is matched by a [pop]. *)
Theorem drawPlant_draws (climR : Climate.t) (soilR : Soil.t) (reqs : Crop.t)
    (res : SimulationResult) (f : Frame) :
  evaluate climR soilR reqs = Some res ->
  In f (timeline res) ->
  exists (q : Q) (m : Z) (cmds : list Cmd),
    biomass f = Fin q
    /\ (1 <= m <= 7)%Z
    /\ inject_Z m - 1 <= q * 6 /\ q * 6 < inject_Z m
    /\ drawPlant 8 (fits res) f = Some cmds
    /\ lines cmds = (2 ^ Z.to_nat m - 1)%nat
    /\ (lines cmds <= 127)%nat
    /\ stackAfter cmds 0 = Some 0%nat.
Proof.
  intros H I.
  destruct (evaluate_inv _ _ _ _ H) as (e & _ & _ & Etl & _).
  destruct (rates_finite e (Climate.annualRainMm climR) reqs)
    as (g & dc & sh & Hsh & Eg & Edc & Esh & _).
  pose proof (runTimeline_unit g dc sh Hsh _ _ _ _ Eg Edc Esh) as U.
  rewrite <- Etl in U.
  destruct (proj1 (List.Forall_forall _ _) U f I) as (q & Eq & Hq).
  set (z := Qfloor (q * 6)).
  assert (L : (Qfloor 0 <= z)%Z) by (apply Qfloor_resp_le; lra).
  assert (Up : (z <= Qfloor 6)%Z) by (apply Qfloor_resp_le; lra).
  change (Qfloor 0) with 0%Z in L. change (Qfloor 6) with 6%Z in Up.
  pose proof (Qfloor_le (q * 6)) as Fl.
  pose proof (Qlt_floor (q * 6)) as Fu.
  fold z in Fl, Fu. rewrite inject_Z_plus in Fu.
  change (inject_Z 1) with 1 in Fu.
  exists q, (z + 1)%Z.
  destruct (branch_ok (z + 1) (inject_Z z + 1)
              (add (Fin 20) (mul (solar (fits res)) (Fin 25)))
              (Z.to_nat (z + 1))
              ltac:(rewrite inject_Z_plus; reflexivity)
              8%nat (add (Fin 15) (mul (Fin q) (Fin 50))) 1 1%Z)
    as (cmds & E & Ln & St); try reflexivity; try lia.
  eexists. split; [exact Eq|]. split; [lia|].
  rewrite inject_Z_plus. change (inject_Z 1) with 1.
  split; [lra|]. split; [lra|].
  unfold drawPlant, maxDepthOf. rewrite Eq. cbn [mul Math_floor add].
  fold z. cbn [mul add] in E. rewrite E.
  split; [reflexivity|]. rewrite lines_app. cbn [lines List.filter length].
  fold (lines cmds). rewrite Ln. split; [reflexivity|]. split.
  - assert (2 ^ Z.to_nat (z + 1) <= 2 ^ 7)%nat
      by (apply Nat.pow_le_mono_r; lia).
    change (2 ^ 7)%nat with 128%nat in *. lia.
  - cbn [app stackAfter]. apply St.
Qed.

Lemma drawPlant_draws_witness :
  evaluate temperate loam wheat = Some lush
  /\ exists f q m cmds,
       In f (timeline lush)
       /\ biomass f = Fin q
       /\ (1 <= m <= 7)%Z
       /\ drawPlant 8 (fits lush) f = Some cmds
       /\ lines cmds = (2 ^ Z.to_nat m - 1)%nat
       /\ stackAfter cmds 0 = Some 0%nat.
Proof.
  assert (E : evaluate temperate loam wheat = Some lush)
    by (vm_compute; reflexivity).
  split; [exact E|].
  assert (I : In (nth 2 (timeline lush) noFrame) (timeline lush))
    by (apply (nth_error_In _ 2); reflexivity).
  destruct (drawPlant_draws temperate loam wheat lush _ E I)
    as (q & m & cmds & Hq & Hm & _ & _ & Hd & Hl & _ & Hs).
  eexists. exists q, m, cmds.
  split; [exact I|]. split; [exact Hq|]. split; [exact Hm|].
  split; [exact Hd|]. split; [exact Hl|exact Hs].
Defined.

(* ================================================================== *)
(** ** More on the fits, the score and the course of a run *)







Lemma ratio_mono (a b s : Q) : 0 < s -> a <= b -> a / s <= b / s.
Proof.
  intros Hs H. unfold Qdiv. apply Qmult_le_compat_r; [exact H|].
  apply Qlt_le_weak, Qinv_lt_0_compat, Hs.
Qed.

(** X23.  For a range with [min <= idealMin <= idealMax <= max] the fit
    never decreases as a finite value moves up towards the ideal band,
    and never increases as it moves up away from it. *)
Theorem rangeFit_unimodal (r : ThresholdRange) (x y : Q) :
  min r <= idealMin r -> idealMin r <= idealMax r -> idealMax r <= max r ->
  x <= y ->
  (y <= idealMax r ->
   numLe (rangeFit (Fin x) (Some r)) (rangeFit (Fin y) (Some r)))
  /\ (idealMin r <= x ->
      numLe (rangeFit (Fin y) (Some r)) (rangeFit (Fin x) (Some r))).
Proof.
  intros H1 H2 H3 Hxy.
  destruct (rangeFit_unit (Fin x) (Some r)) as (qx & Ex & Hx).
  destruct (rangeFit_unit (Fin y) (Some r)) as (qy & Ey & Hy).
  split; intros Hb.
  - destruct (rangeFit_cases x r) as [[C E]|[[C E]|[[C E]|[C E]]]].
    + rewrite E, Ey. exists 0, qy. repeat split; lra.
    + destruct (rangeFit_cases y r) as [[C' E']|[[C' E']|[[C' E']|[C' E']]]];
        try lra.
      rewrite E, E'. exists 1, 1. repeat split; lra.
    + destruct (rangeFit_cases y r) as [[C' E']|[[C' E']|[[C' E']|[C' E']]]];
        try lra.
      * rewrite Ex, E'. exists qx, 1. repeat split; lra.
      * rewrite E, E'. do 2 eexists.
        split; [reflexivity|]. split; [reflexivity|].
        pose proof (ratio_mono (idealMin r - y) (idealMin r - x)
                      (idealMin r - min r) ltac:(lra) ltac:(lra)) as M.
        set (a := (idealMin r - y) / (idealMin r - min r)) in *.
        set (b := (idealMin r - x) / (idealMin r - min r)) in *.
        clearbody a b. qclamp. lra.
    + lra.
  - destruct (rangeFit_cases y r) as [[C E]|[[C E]|[[C E]|[C E]]]].
    + rewrite E, Ex. exists 0, qx. repeat split; lra.
    + destruct (rangeFit_cases x r) as [[C' E']|[[C' E']|[[C' E']|[C' E']]]];
        try lra.
      rewrite E, E'. exists 1, 1. repeat split; lra.
    + lra.
    + destruct (rangeFit_cases x r) as [[C' E']|[[C' E']|[[C' E']|[C' E']]]];
        try lra.
      * rewrite Ey, E'. exists qy, 1. repeat split; lra.
      * rewrite E, E'. do 2 eexists.
        split; [reflexivity|]. split; [reflexivity|].
        pose proof (ratio_mono (x - idealMax r) (y - idealMax r)
                      (max r - idealMax r) ltac:(lra) ltac:(lra)) as M.
        set (a := (x - idealMax r) / (max r - idealMax r)) in *.
        set (b := (y - idealMax r) / (max r - idealMax r)) in *.
        clearbody a b. qclamp. lra.
Qed.

Lemma rangeFit_unimodal_witness :
  numLe (rangeFit (Fin 5) (Some (mkRange 3 32 15 24)))
        (rangeFit (Fin 9) (Some (mkRange 3 32 15 24)))
  /\ numLe (rangeFit (Fin 30) (Some (mkRange 3 32 15 24)))
           (rangeFit (Fin 26) (Some (mkRange 3 32 15 24))).
Proof.
  split.
  - apply (rangeFit_unimodal (mkRange 3 32 15 24) 5 9); cbn; lra.
  - apply (rangeFit_unimodal (mkRange 3 32 15 24) 26 30); cbn; lra.
Defined.


Section ClosedForm.

Variables g dc sh : Q.
Hypothesis sh_nonneg : 0 <= sh.
Hypothesis sh_small : sh <= 1.
Variables env stress rain : number.
Variable reqs : Crop.t.
Hypothesis growthRate_is : growthRate env = Fin g.
Hypothesis decay_is : decay stress = Fin dc.
Hypothesis shock_is : shock rain reqs = Fin sh.



End ClosedForm.



(** X25.  A plant dies on day 21 or not at all: in an answer whose status
    is "fail" the frames of days 1 to 20 are alive and all later ones are
    not, and in every other answer all frames are alive. *)
Theorem death_day (climR : Climate.t) (soilR : Soil.t) (reqs : Crop.t)
    (res : SimulationResult) (f : Frame) :
  evaluate climR soilR reqs = Some res ->
  In f (timeline res) ->
  alive f = if String.eqb (status res) "fail"
            then (day f <=? 20)%Z else true.
Proof.
  intros H I.
  destruct (evaluate_inv _ _ _ _ H) as (e & Ee & _ & Etl & _).
  destruct (status_by_alive _ _ _ _ e H Ee) as (n & _ & _ & _ & _ & Est).
  set (rain := Climate.annualRainMm climR) in *.
  destruct (rates_finite e rain reqs)
    as (g & dc & sh & Hsh & Eg & Edc & Esh & Hg & Hdc0 & Hdc).
  assert (Hsh3 : sh <= 0.003).
  { destruct (shock_cases rain reqs) as [E0|E0]; rewrite Esh in E0;
      injection E0 as ->; lra. }
  destruct (Qlt_le_dec 0 (Qmax 0 (Qmax 0 (Qmin 1 (0 + g - dc)) - sh)))
    as [Pos|Zero].
  - pose proof (runTimeline_thriving g dc sh Hsh _ _ _ _ Eg Edc Esh Pos) as T.
    rewrite T in Est.
    destruct (runTimeline_shaped (Fin e) (Fin (1 - e)) rain reqs)
      as (_ & _ & _ & Hcur & _).
    rewrite <- Etl in Hcur.
    assert (A : alive f = true).
    { apply In_nth_error in I as (i & Hi).
      destruct (alive f) eqn:A; [reflexivity|].
      rewrite (Hcur i f Hi A) in T. discriminate. }
    rewrite A, Est.
    destruct (n <? 60)%Z; [reflexivity|]. now destruct (n <? 80)%Z.
  - assert (Z0 : Qmax 0 (Qmax 0 (Qmin 1 (0 + g - dc)) - sh) == 0).
    { apply Qle_antisym; [exact Zero|]. apply (next_unit g dc sh Hsh 0). }
    assert (Lo : e < 0.4).
    { destruct (Qlt_le_dec e 0.4) as [L|Hi]; [exact L|].
      pose proof (decay_low (1 - e)) as D.
      unfold GROWTH.stressThreshold in D. rewrite D in Edc by lra.
      injection Edc as <-. revert Z0. qclamp. lra. }
    specialize (Hdc Lo).
    assert (S7 : gtb (Fin (1 - e)) (Fin 0.7) = true).
    { apply Qltb_lt. revert Z0. qclamp. lra. }
    destruct (runTimeline_dies g dc sh Hsh _ _ _ _ Eg Edc Esh Z0 S7)
      as (Hal & D).
    rewrite Hal in Est. rewrite <- Etl in D. rewrite Est. cbn.
    exact (proj1 (List.Forall_forall _ _) D f I).
Qed.

Lemma death_day_witness :
  evaluate arctic acid wheat = Some barren
  /\ In barren_day21 (timeline barren)
  /\ alive barren_day21
     = if String.eqb (status barren) "fail"
       then (day barren_day21 <=? 20)%Z else true.
Proof.
  assert (E : evaluate arctic acid wheat = Some barren)
    by (vm_compute; reflexivity).
  assert (I : In barren_day21 (timeline barren))
    by (apply (nth_error_In _ 20); reflexivity).
  split; [exact E|]. split; [exact I|].
  exact (death_day arctic acid wheat barren barren_day21 E I).
Defined.
